(** * Book collection: request handler, schema bootstrap and client view

    A shallow embedding of [src/pages/api/hello.ts] (the request handler and
    the module initialisation that creates and seeds the [books] table) and of
    the page component [Home] (the client view), with the properties the
    specification states about them.

    Layout: [JS] holds the JavaScript values the two files compute with,
    [Sqlite] the [books] table behind the prepared statements, [Api] the
    handler, [Client] the page component. *)

From Stdlib Require Import ZArith List String Ascii Bool Lia.
From Stdlib Require Import Floats.SpecFloat.
Import ListNotations.

Local Open Scope string_scope.
Local Open Scope list_scope.
Local Open Scope Z_scope.

(* ================================================================= *)
(** ** JavaScript values *)

Module JS.

(** A JavaScript number is an IEEE 754 binary64 value. *)
Definition number : Type := spec_float.

Definition prec : Z := 53.
Definition emax : Z := 1024.

Definition NaN : number := S754_nan.

(** [isNaN(x)] for a number. *)
Definition isNaN (x : number) : bool :=
  match x with S754_nan => true | _ => false end.

(** ToBoolean on a number: [+0], [-0] and [NaN] are falsy. *)
Definition truthy_number (x : number) : bool :=
  match x with
  | S754_nan | S754_zero _ => false
  | _ => true
  end.

(** The number nearest to the integer [z] (ties to even). *)
Definition of_Z (z : Z) : number :=
  binary_normalize prec emax z 0 false.

(** The number nearest to [m * 10 ^ e] for [m > 0], with sign [s]. *)
Definition of_decimal (s : bool) (m : positive) (e : Z) : number :=
  match e with
  | Zneg k =>
      SFdiv prec emax (S754_finite s m 0) (S754_finite false (10 ^ k)%positive 0)
  | _ => binary_normalize prec emax (cond_Zopp s (Zpos m * 10 ^ e)) 0 s
  end.

(** The integer a finite number denotes, when it denotes one. *)
Definition to_Z (x : number) : option Z :=
  match x with
  | S754_zero _ => Some 0
  | S754_finite s m (Zneg k) =>
      if (Zpos m mod 2 ^ Zpos k =? 0)
      then Some (cond_Zopp s (Zpos m / 2 ^ Zpos k)) else None
  | S754_finite s m e => Some (cond_Zopp s (Zpos m * 2 ^ e))
  | _ => None
  end.

(** Numeric equality of a number and an integer. *)
Definition eqb_Z (x : number) (z : Z) : bool :=
  match to_Z x with Some y => y =? z | None => false end.

(** *** Strings as sequences of code units

    A string is a [String.string]; each [ascii] stands for the code unit of
    the same value (0..255). *)

Definition is_white (c : ascii) : bool :=
  let n := nat_of_ascii c in
  ((9 <=? n) && (n <=? 13) || (n =? 32) || (n =? 160))%nat.

Definition digit_of (c : ascii) : option Z :=
  let n := Z.of_nat (nat_of_ascii c) in
  if (48 <=? n) && (n <=? 57) then Some (n - 48)
  else if (97 <=? n) && (n <=? 122) then Some (n - 87)
  else if (65 <=? n) && (n <=? 90) then Some (n - 55)
  else None.

Definition digit_in (radix : Z) (c : ascii) : option Z :=
  match digit_of c with
  | Some d => if d <? radix then Some d else None
  | None => None
  end.

Fixpoint trim_start (s : string) : string :=
  match s with
  | String c r => if is_white c then trim_start r else s
  | EmptyString => s
  end.

Fixpoint all_white (s : string) : bool :=
  match s with
  | String c r => is_white c && all_white r
  | EmptyString => true
  end.

(** The longest prefix of [s] made of digits of [radix]: how many digits,
    their value, and what follows them. *)
Fixpoint digits (radix : Z) (s : string) (n acc : Z) : Z * Z * string :=
  match s with
  | String c r =>
      match digit_in radix c with
      | Some d => digits radix r (n + 1) (acc * radix + d)
      | None => (n, acc, s)
      end
  | EmptyString => (n, acc, s)
  end.

Definition starts_with (p s : string) : bool :=
  match String.length p with
  | O => true
  | n => String.eqb (String.substring 0 n s) p
  end.

Definition drop (n : nat) (s : string) : string :=
  String.substring n (String.length s - n) s.

(** A sign character at the head of [s], if any. *)
Definition sign (s : string) : bool * string :=
  match s with
  | String "-" r => (true, r)
  | String "+" r => (false, r)
  | _ => (false, s)
  end.

Definition signed_zero (s : bool) : number := S754_zero s.

Definition decimal_value (s : bool) (m e : Z) : number :=
  match m with
  | Zpos p => of_decimal s p e
  | _ => signed_zero s
  end.

(** ExponentPart of a StrDecimalLiteral: [e] or [E], an optional sign and at
    least one digit.  Returns the exponent and the rest. *)
Definition exponent_part (s : string) : option (Z * string) :=
  match s with
  | String c r =>
      if (Ascii.eqb c "e" || Ascii.eqb c "E")%bool then
        let '(neg, r1) := sign r in
        let '(n, v, r2) := digits 10 r1 0 0 in
        if n =? 0 then None else Some (cond_Zopp neg v, r2)
      else None
  | EmptyString => None
  end.

(** StrUnsignedDecimalLiteral other than [Infinity], followed by white space
    only: digits, an optional fraction, an optional exponent. *)
Definition unsigned_decimal (s : bool) (t : string) : number :=
  let '(ni, vi, r) := digits 10 t 0 0 in
  let '(nf, vf, r1) :=
    match r with
    | String "." r' => digits 10 r' 0 vi
    | _ => (0, vi, r)
    end in
  if (ni =? 0) && (nf =? 0) then NaN
  else
    let '(e, r2) :=
      match exponent_part r1 with
      | Some (e, r2) => (e, r2)
      | None => (0, r1)
      end in
    if all_white r2 then decimal_value s vf (e - nf) else NaN.

Definition non_decimal (radix : Z) (t : string) : number :=
  let '(n, v, r) := digits radix t 0 0 in
  if (0 <? n) && all_white r then of_Z v else NaN.

(** [Number(s)] for a string [s] (StringToNumber). *)
Definition Number (s : string) : number :=
  let t := trim_start s in
  if all_white t then signed_zero false
  else if starts_with "0x" t || starts_with "0X" t then non_decimal 16 (drop 2 t)
  else if starts_with "0o" t || starts_with "0O" t then non_decimal 8 (drop 2 t)
  else if starts_with "0b" t || starts_with "0B" t then non_decimal 2 (drop 2 t)
  else
    let '(neg, u) := sign t in
    if starts_with "Infinity" u then
      if all_white (drop 8 u) then S754_infinity neg else NaN
    else unsigned_decimal neg u.

(** [parseInt(s)] for a string [s], no radix given. *)
Definition parseInt (s : string) : number :=
  let '(neg, u) := sign (trim_start s) in
  let hex := starts_with "0x" u || starts_with "0X" u in
  let '(n, v, _) :=
    if hex then digits 16 (drop 2 u) 0 0 else digits 10 u 0 0 in
  if n =? 0 then NaN
  else if v =? 0 then signed_zero neg
  else binary_normalize prec emax (cond_Zopp neg v) 0 neg.

(** *** Values of type [any]

    An object lists each of its own properties once. *)

#[warnings="-register-all"]
Inductive value : Type :=
| VUndefined
| VNull
| VBool (b : bool)
| VNumber (x : number)
| VString (s : string)
| VArray (items : list value)
| VObject (props : list (string * value)).

(** ToBoolean. *)
Definition truthy (v : value) : bool :=
  match v with
  | VUndefined | VNull => false
  | VBool b => b
  | VNumber x => truthy_number x
  | VString s => negb (String.eqb s "")
  | VArray _ | VObject _ => true
  end.

Fixpoint lookup (k : string) (props : list (string * value)) : value :=
  match props with
  | (k', v) :: rest => if String.eqb k k' then v else lookup k rest
  | [] => VUndefined
  end.

(** Property read [v.k] for the keys used here ([title], [author], [year]):
    [None] when the read throws a TypeError (on [undefined] and [null]);
    primitives and arrays have no such property. *)
Definition get_prop (v : value) (k : string) : option value :=
  match v with
  | VUndefined | VNull => None
  | VObject props => Some (lookup k props)
  | _ => Some VUndefined
  end.

End JS.

(* ================================================================= *)
(** ** The [books] table *)

Module Sqlite.
Import JS.

(** What a thrown exception carries. *)
Record Error : Type := { name : string; message : string }.

Definition SqliteError (m : string) : Error := {| name := "SqliteError"; message := m |}.
Definition TypeError (m : string) : Error := {| name := "TypeError"; message := m |}.
Definition RangeError (m : string) : Error := {| name := "RangeError"; message := m |}.

(** A cell of a TEXT column.  [Rendered x] is the text SQLite writes for the
    REAL [x] when it is stored under TEXT affinity; the digits themselves are
    not spelled out here. *)
Inductive text_cell : Type :=
| Text (s : string)
| Rendered (x : number).

(** A cell of an INTEGER column.  [Converted s] is what INTEGER affinity
    stores for the text [s]: the number it spells if it spells one, the text
    itself otherwise. *)
Inductive integer_cell : Type :=
| Integer (z : Z)
| Real (x : number)
| Converted (s : string).

(** A row of [books]:
    [id INTEGER PRIMARY KEY AUTOINCREMENT, title TEXT NOT NULL,
     author TEXT NOT NULL, year INTEGER NOT NULL]. *)
Record Book : Type := {
  id : Z;
  title : text_cell;
  author : text_cell;
  year : integer_cell
}.

(** The table: its rows in rowid order and the largest rowid ever handed
    out, which AUTOINCREMENT keeps in [sqlite_sequence]. *)
Record table : Type := { rows : list Book; sequence : Z }.

(** A database file: the [books] table if it has been created. *)
Definition database : Type := option table.

(** *** Binding parameters (better-sqlite3) *)

Inductive param : Type :=
| PNull
| PReal (x : number)
| PText (s : string).

(** One value for one placeholder: numbers bind as REAL (NaN as NULL),
    strings as TEXT, [null] and [undefined] as NULL; anything else is
    refused. *)
Definition bind_value (v : value) : Error + param :=
  match v with
  | VNumber x => inr (if isNaN x then PNull else PReal x)
  | VString s => inr (PText s)
  | VNull | VUndefined => inr PNull
  | _ => inl (TypeError "SQLite3 can only bind numbers, strings, bigints, buffers, and null")
  end.

(** The placeholders of a statement are filled from left to right; binding
    past the last one is refused. *)
Definition bind_next (limit : nat) (v : value) (bound : list param)
  : Error + list param :=
  match bind_value v with
  | inl e => inl e
  | inr p =>
      if (List.length bound <? limit)%nat then inr (bound ++ [p])
      else inl (RangeError "Too many parameter values were provided")
  end.

Fixpoint bind_items (limit : nat) (items : list value) (bound : list param)
  : Error + list param :=
  match items with
  | [] => inr bound
  | v :: rest =>
      match bind_next limit v bound with
      | inl e => inl e
      | inr bound' => bind_items limit rest bound'
      end
  end.

(** The arguments of [run]/[get]: an array argument is spread over the next
    placeholders, one plain object may stand for the named parameters (these
    statements have none), any other argument fills one placeholder. *)
Fixpoint bind_args (limit : nat) (args : list value) (named : bool)
  (bound : list param) : Error + list param :=
  match args with
  | [] =>
      if (List.length bound <? limit)%nat
      then inl (RangeError "Too few parameter values were provided")
      else inr bound
  | VArray items :: rest =>
      match bind_items limit items bound with
      | inl e => inl e
      | inr bound' => bind_args limit rest named bound'
      end
  | VObject _ :: rest =>
      if named
      then inl (TypeError "You cannot specify named parameters in two different objects")
      else bind_args limit rest true bound
  | v :: rest =>
      match bind_next limit v bound with
      | inl e => inl e
      | inr bound' => bind_args limit rest named bound'
      end
  end.

(** *** Column affinity and constraints *)

(** The integers a REAL is turned into when stored: those strictly between
    the smallest and the largest 64-bit integer. *)
Definition int64 (z : Z) : bool := (- 2 ^ 63 <? z) && (z <? 2 ^ 63 - 1).

(** TEXT NOT NULL. *)
Definition text_column (p : param) : option text_cell :=
  match p with
  | PNull => None
  | PText s => Some (Text s)
  | PReal x => Some (Rendered x)
  end.

(** INTEGER NOT NULL: a REAL that is an integer is stored as that integer. *)
Definition integer_column (p : param) : option integer_cell :=
  match p with
  | PNull => None
  | PText s => Some (Converted s)
  | PReal x =>
      match to_Z x with
      | Some z => Some (if int64 z then Integer z else Real x)
      | None => Some (Real x)
      end
  end.

(** *** The statements of [hello.ts] *)

Definition no_such_table : Error := SqliteError "no such table: books".

(** [WHERE id = ?] with the number [x] bound: the INTEGER key is compared
    with the REAL by value. *)
Definition id_is (x : number) (b : Book) : bool := eqb_Z x (id b).

(** [CREATE TABLE IF NOT EXISTS books (...)]. *)
Definition create_table (db : database) : database :=
  match db with
  | Some t => Some t
  | None => Some {| rows := []; sequence := 0 |}
  end.

(** [SELECT COUNT( * ) as count FROM books]. *)
Definition select_count (db : database) : Error + Z :=
  match db with
  | Some t => inr (Z.of_nat (List.length (rows t)))
  | None => inl no_such_table
  end.

Definition max_id (bs : list Book) : Z :=
  fold_right (fun b m => Z.max (id b) m) 0 bs.

(** [INSERT INTO books (title, author, year) VALUES (?, ?, ?)] run with three
    arguments.  The new rowid is one more than the largest ever used; there
    is none left after [2^63 - 1]. *)
Definition insert (t a y : value) (db : database) : Error + database :=
  match db with
  | None => inl no_such_table
  | Some tb =>
      match bind_args 3 [t; a; y] false [] with
      | inl e => inl e
      | inr [pt; pa; py] =>
          match text_column pt, text_column pa, integer_column py with
          | Some ct, Some ca, Some cy =>
              let last := Z.max (max_id (rows tb)) (sequence tb) in
              if last <? 2 ^ 63 - 1 then
                inr (Some {| rows := rows tb ++
                               [{| id := last + 1; title := ct; author := ca; year := cy |}];
                             sequence := last + 1 |})
              else inl (SqliteError "database or disk is full")
          | _, _, _ => inl (SqliteError "NOT NULL constraint failed")
          end
      | inr _ => inl (RangeError "Too few parameter values were provided")
      end
  end.

(** [SELECT * FROM books WHERE id = ?] with [get(id)]. *)
Definition select_by_id (x : number) (db : database) : Error + option Book :=
  match db with
  | Some t => inr (find (id_is x) (rows t))
  | None => inl no_such_table
  end.

(** [SELECT * FROM books] with [all()]. *)
Definition select_all (db : database) : Error + list Book :=
  match db with
  | Some t => inr (rows t)
  | None => inl no_such_table
  end.

Definition count_where (f : Book -> bool) (bs : list Book) : Z :=
  Z.of_nat (List.length (filter f bs)).

(** [UPDATE books SET title = ?, author = ?, year = ? WHERE id = ?] with
    [run(title, author, year, id)]: the number of rows changed and the new
    table.  [id] is a number, so it fills exactly the last placeholder and
    the three before it come from [title], [author] and [year]. *)
Definition update (t a y : value) (x : number) (db : database)
  : Error + (Z * database) :=
  match db with
  | None => inl no_such_table
  | Some tb =>
      match bind_args 4 [t; a; y; VNumber x] false [] with
      | inl e => inl e
      | inr (pt :: pa :: py :: _) =>
          if existsb (id_is x) (rows tb) then
            match text_column pt, text_column pa, integer_column py with
            | Some ct, Some ca, Some cy =>
                let set b :=
                  if id_is x b
                  then {| id := id b; title := ct; author := ca; year := cy |}
                  else b in
                inr (count_where (id_is x) (rows tb),
                     Some {| rows := map set (rows tb); sequence := sequence tb |})
            | _, _, _ => inl (SqliteError "NOT NULL constraint failed")
            end
          else inr (0, db)
      | inr _ => inl (RangeError "Too few parameter values were provided")
      end
  end.

(** [DELETE FROM books WHERE id = ?] with [run(id)]. *)
Definition delete (x : number) (db : database) : Error + (Z * database) :=
  match db with
  | None => inl no_such_table
  | Some tb =>
      inr (count_where (id_is x) (rows tb),
           Some {| rows := filter (fun b => negb (id_is x b)) (rows tb);
                   sequence := sequence tb |})
  end.

End Sqlite.

(* ================================================================= *)
(** ** [src/pages/api/hello.ts] *)

Module Api.
Import JS Sqlite.

(** *** Module initialisation *)

(** The part of the file system the module touches: whether the [data]
    directory exists, and the content of [data/books.db] if the file
    exists. *)
Record disk : Type := { data_dir : bool; books_db : option database }.

Definition empty_disk : disk := {| data_dir := false; books_db := None |}.

Definition existsSync (d : disk) : bool := data_dir d.

Definition mkdirSync (d : disk) : disk :=
  {| data_dir := true; books_db := books_db d |}.

(** [new Database(dbPath)]: the file is created, with no table, when it is
    not there. *)
Definition open (d : disk) : database :=
  match books_db d with
  | Some db => db
  | None => None
  end.

Definition fakeBooks : list (string * string * Z) :=
  [ ("The Great Gatsby", "F. Scott Fitzgerald", 1925);
    ("1984", "George Orwell", 1949);
    ("To Kill a Mockingbird", "Harper Lee", 1960) ].

(** [for (const book of fakeBooks) insert.run(book.title, book.author, book.year)] *)
Fixpoint insert_all (books : list (string * string * Z)) (db : database)
  : Error + database :=
  match books with
  | [] => inr db
  | (t, a, y) :: rest =>
      match insert (VString t) (VString a) (VNumber (of_Z y)) db with
      | inl e => inl e
      | inr db' => insert_all rest db'
      end
  end.

(** Everything the module does when it is loaded, before [handler] can be
    called: an exception aborts the load. *)
Definition initialise (d : disk) : Error + disk :=
  let d := if negb (existsSync d) then mkdirSync d else d in
  let db := create_table (open d) in
  match select_count db with
  | inl e => inl e
  | inr count =>
      if count =? 0 then
        match insert_all fakeBooks db with
        | inl e => inl e
        | inr db' => inr {| data_dir := data_dir d; books_db := Some db' |}
        end
      else inr {| data_dir := data_dir d; books_db := Some db |}
  end.

(** What the first load leaves in the table. *)
Definition seed_rows : list Book :=
  [ {| id := 1; title := Text "The Great Gatsby";
       author := Text "F. Scott Fitzgerald"; year := Integer 1925 |};
    {| id := 2; title := Text "1984";
       author := Text "George Orwell"; year := Integer 1949 |};
    {| id := 3; title := Text "To Kill a Mockingbird";
       author := Text "Harper Lee"; year := Integer 1960 |} ].

Definition seeded : database := Some {| rows := seed_rows; sequence := 3 |}.

Definition seeded_disk : disk := {| data_dir := true; books_db := Some seeded |}.

(** *** Requests and responses *)

(** [req.query.id] is [string | string[] | undefined]. *)
Inductive query_value : Type :=
| QString (s : string)
| QArray (items : list string).

Record Request : Type := {
  method : option string;
  query_id : option query_value;
  body : value
}.

Inductive Payload : Type :=
| ErrorBody (error : string)            (* [json({ error })] *)
| BookBody (book : option Book)         (* [json(book)]; [None] is [undefined] *)
| BooksBody (books : list Book)         (* [json(books)] *)
| EndBody (text : option string).       (* [end()], [end(text)] *)

Record Response : Type := {
  status : Z;
  headers : list (string * list string);
  payload : Payload
}.

Definition json (code : Z) (p : Payload) : Response :=
  {| status := code; headers := []; payload := p |}.

(** [req.query.id ? Number(req.query.id[0]) : null]; [None] is [null].
    Indexing a string gives its first code unit, indexing an array its first
    element or [undefined], and [Number(undefined)] is [NaN]. *)
Definition parse_id (q : option query_value) : option number :=
  match q with
  | None => None
  | Some (QString EmptyString) => None
  | Some (QString (String c _)) => Some (Number (String c EmptyString))
  | Some (QArray []) => Some NaN
  | Some (QArray (s :: _)) => Some (Number s)
  end.

(** ToBoolean of [id]. *)
Definition truthy_id (id : option number) : bool :=
  match id with
  | Some x => truthy_number x
  | None => false
  end.

(** [isNaN(id)]; [isNaN(null)] is [false]. *)
Definition isNaN_id (id : option number) : bool :=
  match id with
  | Some x => isNaN x
  | None => false
  end.

(** The number [id] is in a branch where [id] is truthy. *)
Definition when_truthy (id : option number) : option number :=
  match id with
  | Some x => if truthy_number x then Some x else None
  | None => None
  end.

Definition method_is (m : option string) (s : string) : bool :=
  match m with
  | Some m' => String.eqb m' s
  | None => false
  end.

Definition method_text (m : option string) : string :=
  match m with
  | Some m' => m'
  | None => "undefined"
  end.

(** *** The store behind [db] and the effects of a request *)

(** The four prepared statements the handler runs.  Each either throws or
    returns, and leaves the store in some state. *)
Class Database (DB : Type) : Type := {
  db_get : number -> DB -> (Error + option Book) * DB;
  db_all : DB -> (Error + list Book) * DB;
  db_update : value -> value -> value -> number -> DB -> (Error + Z) * DB;
  db_delete : number -> DB -> (Error + Z) * DB
}.

Inductive Statement : Type :=
| SelectById (x : number)
| SelectAll
| Update (t a y : value) (x : number)
| Delete (x : number).

(** One access to the store: the statement, and the exception if it threw. *)
Record Access : Type := { statement : Statement; thrown : option Error }.

Section Handler.

Context {DB : Type} {D : Database DB}.

(** The store, the statements run on it so far, and what [console.error]
    has printed. *)
Record world : Type := {
  store : DB;
  accesses : list Access;
  console : list (string * Error)
}.

(** A computation that may throw. *)
Definition M (A : Type) : Type := world -> (Error + A) * world.

Definition ret {A} (a : A) : M A := fun w => (inr a, w).

Definition throw {A} (e : Error) : M A := fun w => (inl e, w).

Definition bind {A B} (m : M A) (k : A -> M B) : M B :=
  fun w =>
    match m w with
    | (inr a, w') => k a w'
    | (inl e, w') => (inl e, w')
    end.

Definition try_catch {A} (m : M A) (h : Error -> M A) : M A :=
  fun w =>
    match m w with
    | (inr a, w') => (inr a, w')
    | (inl e, w') => h e w'
    end.

Notation "x <- m ;; k" := (bind m (fun x => k))
  (at level 61, m at next level, right associativity).
Notation "' p <- m ;; k" := (bind m (fun x => match x with p => k end))
  (at level 61, p pattern, m at next level, right associativity).

Definition console_error (label : string) (e : Error) : M unit :=
  fun w =>
    (inr tt, {| store := store w; accesses := accesses w;
                console := console w ++ [(label, e)] |}).

Definition thrown_of {A} (r : Error + A) : option Error :=
  match r with
  | inl e => Some e
  | inr _ => None
  end.

(** Running a prepared statement. *)
Definition run {A} (s : Statement) (op : DB -> (Error + A) * DB) : M A :=
  fun w =>
    let '(r, db) := op (store w) in
    (r, {| store := db;
           accesses := accesses w ++ [{| statement := s; thrown := thrown_of r |}];
           console := console w |}).

(** [const { title, author, year } = req.body] *)
Definition destructure (b : value) : M (value * value * value) :=
  match get_prop b "title", get_prop b "author", get_prop b "year" with
  | Some t, Some a, Some y => ret (t, a, y)
  | _, _, _ => throw (TypeError "Cannot destructure property 'title' of 'req.body'")
  end.

Definition handler (req : Request) : M Response :=
  let id := parse_id (query_id req) in
  if truthy_id id && isNaN_id id then
    ret (json 400 (ErrorBody "Invalid ID format"))
  else if method_is (method req) "GET" then
    try_catch
      (match when_truthy id with
       | Some x =>
           book <- run (SelectById x) (db_get x) ;;
           match book with
           | None => ret (json 404 (ErrorBody "Book not found"))
           | Some b => ret (json 200 (BookBody (Some b)))
           end
       | None =>
           books <- run SelectAll db_all ;;
           ret (json 200 (BooksBody books))
       end)
      (fun error =>
         _ <- console_error "Error fetching books:" error ;;
         ret (json 500 (ErrorBody "Failed to fetch books")))
  else if method_is (method req) "PUT" then
    try_catch
      (match when_truthy id with
       | None => ret (json 400 (ErrorBody "Missing book ID"))
       | Some x =>
           '(title, author, year) <- destructure (body req) ;;
           if negb (truthy title) || negb (truthy author) || negb (truthy year) then
             ret (json 400 (ErrorBody "Missing required fields"))
           else
             changes <- run (Update title author year x) (db_update title author year x) ;;
             if changes =? 0 then
               ret (json 404 (ErrorBody "Book not found"))
             else
               updatedBook <- run (SelectById x) (db_get x) ;;
               ret (json 200 (BookBody updatedBook))
       end)
      (fun error =>
         _ <- console_error "Error updating book:" error ;;
         ret (json 500 (ErrorBody "Failed to update book")))
  else if method_is (method req) "DELETE" then
    try_catch
      (match when_truthy id with
       | None => ret (json 400 (ErrorBody "Missing book ID"))
       | Some x =>
           changes <- run (Delete x) (db_delete x) ;;
           if changes =? 0 then
             ret (json 404 (ErrorBody "Book not found"))
           else
             ret {| status := 204; headers := []; payload := EndBody None |}
       end)
      (fun error =>
         _ <- console_error "Error deleting book:" error ;;
         ret (json 500 (ErrorBody "Failed to delete book")))
  else
    ret {| status := 405;
           headers := [("Allow", ["GET"; "PUT"; "DELETE"])];
           payload := EndBody (Some ("Method " ++ method_text (method req)
                                       ++ " Not Allowed")%string) |}.

End Handler.

Arguments world DB : clear implicits.
Arguments M DB A : clear implicits.

(** The [books] table as the store. *)
Definition keep {A} (db : database) (r : Error + A) : (Error + A) * database :=
  (r, db).

Definition settle {A} (db : database) (r : Error + (A * database))
  : (Error + A) * database :=
  match r with
  | inl e => (inl e, db)
  | inr (a, db') => (inr a, db')
  end.

#[export] Instance sqlite : Database database := {
  db_get x db := keep db (select_by_id x db);
  db_all db := keep db (select_all db);
  db_update t a y x db := settle db (update t a y x db);
  db_delete x db := settle db (delete x db)
}.

(** A world in which nothing has been run or printed yet. *)
Definition start (db : database) : world database :=
  {| store := db; accesses := []; console := [] |}.

(** The three bodies a failed request can carry. *)
Definition failure_bodies : list Payload :=
  [ ErrorBody "Failed to fetch books";
    ErrorBody "Failed to update book";
    ErrorBody "Failed to delete book" ].

(** The number an INTEGER cell holds. *)
Definition holds (c : integer_cell) (x : number) : Prop :=
  match c with
  | Integer z => to_Z x = Some z
  | Real y => y = x
  | Converted _ => False
  end.

(** [id] is the primary key: no two rows share it. *)
Definition keyed (db : database) : Prop :=
  match db with
  | Some t => NoDup (map id (rows t))
  | None => True
  end.

(** The statements a request may run, by its method. *)
Definition permitted (m : option string) (s : Statement) : bool :=
  match s with
  | SelectAll => method_is m "GET"
  | SelectById _ => method_is m "GET" || method_is m "PUT"
  | Update _ _ _ _ => method_is m "PUT"
  | Delete _ => method_is m "DELETE"
  end.

(** The status codes a request can be answered with, by its method. *)
Definition statuses (m : option string) : list Z :=
  if method_is m "GET" then [200; 404; 500]
  else if method_is m "PUT" then [200; 400; 404; 500]
  else if method_is m "DELETE" then [204; 400; 404; 500]
  else [405].

(** The seed rows as they are numbered when the sequence stands at [s]. *)
Definition seed_rows_after (s : Z) : list Book :=
  map (fun b => {| id := s + id b; title := title b; author := author b;
                   year := year b |}) seed_rows.

End Api.

(* ================================================================= *)
(** ** The page component [Home] *)

Module Client.
Import JS.

Module Book.
Record t : Type := { id : number; title : string; author : string; year : number }.
End Book.

Module FormData.
Record t : Type := { title : string; author : string; year : string }.
End FormData.

(** The five [useState] cells. *)
Record State : Type := {
  books : list Book.t;
  selectedBook : option Book.t;
  editMode : bool;
  formData : FormData.t;
  error : string
}.

Definition initial : State :=
  {| books := [];
     selectedBook := None;
     editMode := false;
     formData := {| FormData.title := ""; FormData.author := ""; FormData.year := "" |};
     error := "" |}.

Definition setBooks (v : list Book.t) (s : State) : State :=
  {| books := v; selectedBook := selectedBook s; editMode := editMode s;
     formData := formData s; error := error s |}.

Definition setSelectedBook (v : option Book.t) (s : State) : State :=
  {| books := books s; selectedBook := v; editMode := editMode s;
     formData := formData s; error := error s |}.

Definition setEditMode (v : bool) (s : State) : State :=
  {| books := books s; selectedBook := selectedBook s; editMode := v;
     formData := formData s; error := error s |}.

Definition setError (v : string) (s : State) : State :=
  {| books := books s; selectedBook := selectedBook s; editMode := editMode s;
     formData := formData s; error := v |}.

Definition setFormData (v : FormData.t) (s : State) : State :=
  {| books := books s; selectedBook := selectedBook s; editMode := editMode s;
     formData := v; error := error s |}.

(** The Edit button of a book.  [toString] is [Number.prototype.toString],
    which [book.year.toString()] calls. *)
Definition handleEdit (toString : number -> string) (book : Book.t) (s : State)
  : State :=
  setError ""
    (setEditMode true
       (setFormData {| FormData.title := Book.title book;
                       FormData.author := Book.author book;
                       FormData.year := toString (Book.year book) |}
          (setSelectedBook (Some book) s))).

(** The edit form is rendered exactly when [editMode] holds. *)
Definition Editing (s : State) : Prop := editMode s = true.
Definition Browsing (s : State) : Prop := editMode s = false.

(** *** Requests *)

(** ["/api/books"] and [`/api/books/${id}`]. *)
Inductive Target : Type :=
| ApiBooks
| ApiBook (id : number).

Record FetchRequest : Type := {
  method : string;
  target : Target;
  body : option value     (* the document [JSON.stringify] is given *)
}.

(** [response.ok], and [await response.json()]: the parsed list, or the
    reason it rejects with. *)
Record Response : Type := { ok : bool; json : string + list Book.t }.

(** [await fetch(...)]: a response, or the reason the promise rejects
    with. *)
Definition Fetched : Type := (string + Response)%type.

(** How [JSON.stringify] writes a number: [NaN] and the infinities become
    [null], and [-0] is written [0]. *)
Definition stringify_number (x : number) : value :=
  match x with
  | S754_nan | S754_infinity _ => VNull
  | S754_zero _ => VNumber (S754_zero false)
  | _ => VNumber x
  end.

Section Home.

(** The other end of [fetch]: whatever answers the requests, with a state
    of its own. *)
Context {Net : Type} (fetch : FetchRequest -> Net -> Fetched * Net).

(** The view, the network, the requests sent so far and what
    [console.error] has printed. *)
Record world : Type := {
  view : State;
  net : Net;
  sent : list FetchRequest;
  console : list (string * string)
}.

Definition set (f : State -> State) (w : world) : world :=
  {| view := f (view w); net := net w; sent := sent w; console := console w |}.

Definition console_error (label reason : string) (w : world) : world :=
  {| view := view w; net := net w; sent := sent w;
     console := console w ++ [(label, reason)] |}.

Definition send (r : FetchRequest) (w : world) : Fetched * world :=
  let '(a, n) := fetch r (net w) in
  (a, {| view := view w; net := n; sent := sent w ++ [r]; console := console w |}).

Definition fetchBooks (w : world) : world :=
  let failed reason w :=
    console_error "Error:" reason (set (setError "Error fetching books") w) in
  let '(a, w) := send {| method := "GET"; target := ApiBooks; body := None |} w in
  match a with
  | inl reason => failed reason w
  | inr response =>
      if negb (ok response) then failed "Failed to fetch books" w
      else
        match json response with
        | inl reason => failed reason w
        | inr data => set (setError "") (set (setBooks data) w)
        end
  end.

(** The document sent by [handleUpdate]. *)
Definition update_body (f : FormData.t) : value :=
  VObject [ ("title", VString (FormData.title f));
            ("author", VString (FormData.author f));
            ("year", stringify_number (parseInt (FormData.year f))) ].

Definition handleUpdate (w : world) : world :=
  let failed reason w :=
    console_error "Error:" reason (set (setError "Error updating book") w) in
  match selectedBook (view w) with
  | None => w
  | Some selected =>
      let '(a, w) :=
        send {| method := "PUT";
                target := ApiBook (Book.id selected);
                body := Some (update_body (formData (view w))) |} w in
      match a with
      | inl reason => failed reason w
      | inr response =>
          if negb (ok response) then failed "Failed to update book" w
          else
            fetchBooks
              (set (setError "") (set (setSelectedBook None) (set (setEditMode false) w)))
      end
  end.

(** The Cancel button: [onClick={() => setEditMode(false)}]. *)
Definition cancel (w : world) : world := set (setEditMode false) w.

(** The Delete button of a book: [handleDelete(book.id)]. *)
Definition handleDelete (id : number) (w : world) : world :=
  let failed reason w :=
    console_error "Error:" reason (set (setError "Error deleting book") w) in
  let '(a, w) :=
    send {| method := "DELETE"; target := ApiBook id; body := None |} w in
  match a with
  | inl reason => failed reason w
  | inr response =>
      if negb (ok response) then failed "Failed to delete book" w
      else fetchBooks (set (setError "") w)
  end.

End Home.

Arguments world Net : clear implicits.

(** *** Reading an answer *)

(** The request [fetch("/api/books")] makes. *)
Definition list_request : FetchRequest :=
  {| method := "GET"; target := ApiBooks; body := None |}.

(** [response.ok] of an answer that came at all. *)
Definition succeeded (a : Fetched) : bool :=
  match a with
  | inr response => ok response
  | inl _ => false
  end.

(** The list a resolved, successful and well-formed answer carries. *)
Definition listing (a : Fetched) : option (list Book.t) :=
  match a with
  | inr response =>
      if ok response then
        match json response with
        | inr data => Some data
        | inl _ => None
        end
      else None
  | inl _ => None
  end.

(** What [console.error] is given when the PUT fails. *)
Definition update_failure (a : Fetched) : string :=
  match a with
  | inl reason => reason
  | inr _ => "Failed to update book"
  end.

(** The requests [handleUpdate] and [handleDelete] send. *)
Definition update_request (selected : Book.t) (f : FormData.t) : FetchRequest :=
  {| method := "PUT"; target := ApiBook (Book.id selected);
     body := Some (update_body f) |}.

Definition delete_request (id : number) : FetchRequest :=
  {| method := "DELETE"; target := ApiBook id; body := None |}.

(** What [console.error] is given when the DELETE fails. *)
Definition delete_failure (a : Fetched) : string :=
  match a with
  | inl reason => reason
  | inr _ => "Failed to delete book"
  end.

(** Everything the error slot is ever set to. *)
Definition error_messages : list string :=
  [ ""; "Error fetching books"; "Error updating book"; "Error deleting book" ].

(** A number that is neither [NaN], nor infinite, nor zero. *)
Definition finite_nonzero (x : number) : bool :=
  match x with
  | S754_finite _ _ _ => true
  | _ => false
  end.

(** *** A view in the middle of an edit *)

Definition book_1984 : Book.t :=
  {| Book.id := of_Z 2; Book.title := "1984"; Book.author := "George Orwell";
     Book.year := of_Z 1949 |}.

Definition editing_1984 : State :=
  {| books := [book_1984];
     selectedBook := Some book_1984;
     editMode := true;
     formData := {| FormData.title := "1984"; FormData.author := "George Orwell";
                    FormData.year := "2000" |};
     error := "" |}.

Definition book_1984_in_2000 : Book.t :=
  {| Book.id := of_Z 2; Book.title := "1984"; Book.author := "George Orwell";
     Book.year := of_Z 2000 |}.

(** A server that accepts everything and lists one book. *)
Definition agreeable (r : FetchRequest) (n : unit) : Fetched * unit :=
  (inr {| ok := true; json := inr [book_1984_in_2000] |}, n).

Definition editing : world unit :=
  {| view := editing_1984; net := tt; sent := []; console := [] |}.

End Client.

(* ================================================================= *)
(** ** Properties of the request handler *)

Module ApiFacts.
Import JS Sqlite Api.

(** [id && isNaN(id)] is never truthy: [NaN] is falsy itself. *)
Lemma guard_is_dead id : truthy_id id && isNaN_id id = false.
Proof. destruct id as [[ | | | ]|]; reflexivity. Qed.

Lemma when_truthy_some id x : when_truthy id = Some x -> truthy_number x = true.
Proof.
  destruct id as [y|]; simpl; [|discriminate].
  destruct (truthy_number y) eqn:E; [|discriminate].
  intros [= <-]. exact E.
Qed.

Lemma when_truthy_none id : truthy_id id = false -> when_truthy id = None.
Proof.
  destruct id as [x|]; simpl; [|reflexivity].
  now intros ->.
Qed.

Lemma method_is_true m s : method_is m s = true -> m = Some s.
Proof.
  destruct m as [m'|]; simpl; [|discriminate].
  intros H. apply String.eqb_eq in H. now subst.
Qed.

Lemma self_app {A} (l new : list A) : l = l ++ new -> new = [].
Proof.
  intros H. rewrite <- (app_nil_r l) in H at 1.
  apply app_inv_head in H. now subst.
Qed.

Ltac step_handler :=
  unfold handler, try_catch, bind, run, ret, throw, console_error, destructure;
  rewrite ?guard_is_dead; simpl.

(** Closes a branch of [handler]: the statements run in it, and what
    became of one that threw. *)
Ltac settle_access Hacc Hin :=
  intros [= <- <-] Hacc Hin; simpl in Hacc;
  first [ apply self_app in Hacc
        | rewrite <- ?app_assoc in Hacc; apply app_inv_head in Hacc ];
  subst; simpl in Hin;
  repeat (destruct Hin as [Hin|Hin]; [inversion Hin; subst; clear Hin|]);
  try contradiction;
  simpl; unfold failure_bodies; simpl; eauto 8.

(** Closes a branch of [handler] by naming the statements run in it. *)
Ltac ran_statements Hm :=
  first [ exists []; split; [simpl; now rewrite app_nil_r|]
        | eexists; split; [simpl; rewrite <- ?app_assoc; reflexivity|] ];
  (split; [simpl; lia|]);
  intros ? Hin; simpl in Hin;
  repeat (destruct Hin as [<-|Hin]; [simpl; rewrite ?Hm, ?orb_true_r; reflexivity|]);
  contradiction.

(** *** Over any store *)

Section AnyStore.

Context {DB : Type} {D : Database DB}.

Implicit Types (req : Request) (w : world DB) (id : option number).

(** The handler always answers: no exception escapes it. *)
Lemma handler_returns req w :
  exists resp w', handler req w = (inr resp, w').
Proof.
  step_handler.
  destruct (method_is (method req) "GET").
  { destruct (when_truthy _) as [x|]; simpl.
    - destruct (db_get x (store w)) as [[e|[b|]] db']; simpl; eauto.
    - destruct (db_all (store w)) as [[e|bs] db']; simpl; eauto. }
  destruct (method_is (method req) "PUT").
  { destruct (when_truthy _) as [x|]; simpl; [|eauto].
    destruct (get_prop (body req) "title") as [t|]; simpl; [|eauto].
    destruct (get_prop (body req) "author") as [a|]; simpl; [|eauto].
    destruct (get_prop (body req) "year") as [y|]; simpl; [|eauto].
    destruct (negb (truthy t) || negb (truthy a) || negb (truthy y)); simpl; [eauto|].
    destruct (db_update t a y x (store w)) as [[e|n] db']; simpl; [eauto|].
    destruct (n =? 0); simpl; [eauto|].
    destruct (db_get x db') as [[e|b] db'']; simpl; eauto. }
  destruct (method_is (method req) "DELETE").
  { destruct (when_truthy _) as [x|]; simpl; [|eauto].
    destruct (db_delete x (store w)) as [[e|n] db']; simpl; [eauto|].
    destruct (n =? 0); simpl; eauto. }
  eauto.
Qed.

(** No request is ever answered with [Invalid ID format]. *)
Lemma invalid_id_never_reported req w resp w' :
  handler req w = (inr resp, w') ->
  payload resp <> ErrorBody "Invalid ID format".
Proof.
  step_handler.
  destruct (method_is (method req) "GET").
  { destruct (when_truthy _) as [x|]; simpl.
    - destruct (db_get x (store w)) as [[e|[b|]] db']; simpl;
        intros [= <- <-]; discriminate.
    - destruct (db_all (store w)) as [[e|bs] db']; simpl;
        intros [= <- <-]; discriminate. }
  destruct (method_is (method req) "PUT").
  { destruct (when_truthy _) as [x|]; simpl; [|intros [= <- <-]; discriminate].
    destruct (get_prop (body req) "title") as [t|]; simpl;
      [|intros [= <- <-]; discriminate].
    destruct (get_prop (body req) "author") as [a|]; simpl;
      [|intros [= <- <-]; discriminate].
    destruct (get_prop (body req) "year") as [y|]; simpl;
      [|intros [= <- <-]; discriminate].
    destruct (negb (truthy t) || negb (truthy a) || negb (truthy y)); simpl;
      [intros [= <- <-]; discriminate|].
    destruct (db_update t a y x (store w)) as [[e|n] db']; simpl;
      [intros [= <- <-]; discriminate|].
    destruct (n =? 0); simpl; [intros [= <- <-]; discriminate|].
    destruct (db_get x db') as [[e|b] db'']; simpl;
      intros [= <- <-]; discriminate. }
  destruct (method_is (method req) "DELETE").
  { destruct (when_truthy _) as [x|]; simpl; [|intros [= <- <-]; discriminate].
    destruct (db_delete x (store w)) as [[e|n] db']; simpl;
      [intros [= <- <-]; discriminate|].
    destruct (n =? 0); simpl; intros [= <- <-]; discriminate. }
  intros [= <- <-]; discriminate.
Qed.

(** A PUT or DELETE whose [id] is falsy ([null], [0], [NaN]) is refused
    before anything touches the store. *)
Lemma missing_id_refused req w :
  truthy_id (parse_id (query_id req)) = false ->
  method_is (method req) "PUT" = true \/ method_is (method req) "DELETE" = true ->
  handler req w = (inr (json 400 (ErrorBody "Missing book ID")), w).
Proof.
  intros Hid Hm.
  pose proof (when_truthy_none _ Hid) as Hw.
  step_handler. rewrite Hw.
  destruct Hm as [Hm|Hm]; apply method_is_true in Hm; rewrite Hm; simpl;
    destruct w; reflexivity.
Qed.

(** A GET whose [id] is falsy lists the table. *)
Lemma falsy_id_lists req w books db' :
  truthy_id (parse_id (query_id req)) = false ->
  method_is (method req) "GET" = true ->
  db_all (store w) = (inr books, db') ->
  handler req w =
    (inr (json 200 (BooksBody books)),
     {| store := db';
        accesses := accesses w ++ [{| statement := SelectAll; thrown := None |}];
        console := console w |}).
Proof.
  intros Hid Hm Hall.
  pose proof (when_truthy_none _ Hid) as Hw.
  step_handler. rewrite Hw, Hm, Hall. reflexivity.
Qed.

(** C10. An identifier that parses to [0] (or [-0]) is handled exactly as
    an absent identifier: the answer and the effects are those of the same
    request without [id].  So a GET lists the table (it never looks a row up
    and never answers not-found), and a PUT or DELETE is refused with
    400 [Missing book ID] before anything touches the store. *)
Theorem zero_id_is_absent_id req w s :
  parse_id (query_id req) = Some (S754_zero s) ->
  handler req w =
    handler {| method := method req; query_id := None; body := body req |} w
  /\ (method_is (method req) "GET" = true ->
      forall books db', db_all (store w) = (inr books, db') ->
        handler req w =
          (inr (json 200 (BooksBody books)),
           {| store := db';
              accesses := accesses w ++ [{| statement := SelectAll; thrown := None |}];
              console := console w |}))
  /\ (method_is (method req) "PUT" = true \/ method_is (method req) "DELETE" = true ->
      handler req w = (inr (json 400 (ErrorBody "Missing book ID")), w)).
Proof.
  intros Hid. split; [|split].
  - unfold handler. simpl. rewrite Hid. reflexivity.
  - intros Hm books db' Hall. apply falsy_id_lists; trivial.
    now rewrite Hid.
  - intros Hm. apply missing_id_refused; trivial.
    now rewrite Hid.
Qed.

(** A PUT with a truthy [id] whose body can be read and lacks a truthy
    [title], [author] or [year] is refused with 400; nothing is run on the
    store and nothing is printed. *)
Lemma put_missing_field_refused req w x t a y :
  method_is (method req) "PUT" = true ->
  when_truthy (parse_id (query_id req)) = Some x ->
  get_prop (body req) "title" = Some t ->
  get_prop (body req) "author" = Some a ->
  get_prop (body req) "year" = Some y ->
  truthy t = false \/ truthy a = false \/ truthy y = false ->
  handler req w = (inr (json 400 (ErrorBody "Missing required fields")), w).
Proof.
  intros Hm Hx Ht Ha Hy Hf.
  apply method_is_true in Hm.
  step_handler. rewrite Hm, Hx, Ht, Ha, Hy. simpl.
  assert (negb (truthy t) || negb (truthy a) || negb (truthy y) = true) as ->.
  { destruct Hf as [->|[->| ->]]; simpl; rewrite ?orb_true_r; reflexivity. }
  destruct w; reflexivity.
Qed.

(** A PUT with a truthy [id] whose body is [null] or [undefined] ends in the
    [catch]: 500, the TypeError printed, the store not touched. *)
Lemma put_unreadable_body req w x :
  method_is (method req) "PUT" = true ->
  when_truthy (parse_id (query_id req)) = Some x ->
  body req = VNull \/ body req = VUndefined ->
  exists e,
    handler req w =
      (inr (json 500 (ErrorBody "Failed to update book")),
       {| store := store w; accesses := accesses w;
          console := console w ++ [("Error updating book:", e)] |}).
Proof.
  intros Hm Hx Hb. apply method_is_true in Hm.
  step_handler. rewrite Hm, Hx. simpl.
  destruct Hb as [-> | ->]; simpl; eexists; reflexivity.
Qed.

(** C9. Whenever a statement run for a request throws, the handler answers
    500 with one of its three fixed bodies, none of which is built from the
    exception, and the exception goes to [console.error] and nowhere else. *)
Theorem store_exception_is_generic_500 req w resp w' new s e :
  handler req w = (inr resp, w') ->
  accesses w' = accesses w ++ new ->
  In {| statement := s; thrown := Some e |} new ->
  status resp = 500
  /\ In (payload resp) failure_bodies
  /\ exists label, console w' = console w ++ [(label, e)].
Proof.
  step_handler.
  destruct (method_is (method req) "GET").
  { destruct (when_truthy _) as [x|]; simpl.
    - destruct (db_get x (store w)) as [[e'|[b|]] db']; simpl;
        settle_access Hacc Hin.
    - destruct (db_all (store w)) as [[e'|bs] db']; simpl;
        settle_access Hacc Hin. }
  destruct (method_is (method req) "PUT").
  { destruct (when_truthy _) as [x|]; simpl; [|settle_access Hacc Hin].
    destruct (get_prop (body req) "title") as [t|]; simpl;
      [|settle_access Hacc Hin].
    destruct (get_prop (body req) "author") as [a|]; simpl;
      [|settle_access Hacc Hin].
    destruct (get_prop (body req) "year") as [y|]; simpl;
      [|settle_access Hacc Hin].
    destruct (negb (truthy t) || negb (truthy a) || negb (truthy y)); simpl;
      [settle_access Hacc Hin|].
    destruct (db_update t a y x (store w)) as [[e'|n] db']; simpl;
      [settle_access Hacc Hin|].
    destruct (n =? 0); simpl; [settle_access Hacc Hin|].
    destruct (db_get x db') as [[e'|b] db'']; simpl;
      settle_access Hacc Hin. }
  destruct (method_is (method req) "DELETE").
  { destruct (when_truthy _) as [x|]; simpl; [|settle_access Hacc Hin].
    destruct (db_delete x (store w)) as [[e'|n] db']; simpl;
      [settle_access Hacc Hin|].
    destruct (n =? 0); simpl; settle_access Hacc Hin. }
  settle_access Hacc Hin.
Qed.

End AnyStore.

(** *** Over the [books] table *)

Section Books.

Implicit Types (req : Request) (w : world database) (tb : table) (x : number).

Lemma truthy_not_NaN x : truthy_number x = true -> isNaN x = false.
Proof. destruct x; simpl; congruence. Qed.

Lemma find_none_filter x (bs : list Book) :
  find (id_is x) bs = None ->
  filter (id_is x) bs = [] /\ filter (fun b => negb (id_is x b)) bs = bs
  /\ existsb (id_is x) bs = false.
Proof.
  induction bs as [|b bs IH]; simpl; [auto|].
  destruct (id_is x b); simpl; [discriminate|].
  intros H. destruct (IH H) as (-> & -> & ->). auto.
Qed.

Lemma find_some_filter x (bs : list Book) b :
  find (id_is x) bs = Some b ->
  existsb (id_is x) bs = true /\ (count_where (id_is x) bs =? 0) = false.
Proof.
  unfold count_where.
  induction bs as [|b' bs IH]; simpl; [discriminate|].
  destruct (id_is x b'); simpl; [auto|].
  intros H. now apply IH.
Qed.

(** After the UPDATE, the first row with that key is the rewritten one. *)
Lemma find_updated x (bs : list Book) b (new : Book -> Book) :
  (forall b', id (new b') = id b') ->
  find (id_is x) bs = Some b ->
  find (id_is x) (map (fun b' => if id_is x b' then new b' else b') bs)
    = Some (new b).
Proof.
  intros Hnew.
  induction bs as [|b' bs IH]; simpl; [discriminate|].
  destruct (id_is x b') eqn:E.
  - intros [= ->]. unfold id_is in *. rewrite Hnew, E. reflexivity.
  - rewrite E. exact IH.
Qed.

(** With [id] a key, the row found is the one row with that key. *)
Lemma find_keyed x (bs : list Book) b :
  NoDup (map id bs) -> In b bs -> id_is x b = true ->
  find (id_is x) bs = Some b.
Proof.
  induction bs as [|b' bs IH]; simpl; [contradiction|].
  intros Hnd [->|Hin] Hx.
  - now rewrite Hx.
  - inversion Hnd as [|? ? Hnotin Hnd']; subst.
    destruct (id_is x b') eqn:E; [|now apply IH].
    exfalso. apply Hnotin.
    unfold id_is, eqb_Z in *.
    destruct (to_Z x) as [z|]; [|discriminate].
    apply Z.eqb_eq in E, Hx. rewrite <- E, Hx.
    now apply in_map.
Qed.

Lemma integer_column_real y :
  exists c, integer_column (PReal y) = Some c /\ (isNaN y = false -> holds c y).
Proof.
  unfold integer_column.
  destruct (to_Z y) as [z|] eqn:E.
  - destruct (int64 z); eexists; split; try reflexivity; simpl; auto.
  - eexists; split; [reflexivity|]. simpl. auto.
Qed.

(** C7. A GET without [id] answers 200 with every row of the table.  A GET
    whose [id] is a truthy number [x] answers 200 with the row whose key is
    [x] when the table has one (the single such row, [id] being the key), and
    404 when it has none.  The table is left as it was. *)
Theorem get_lists_or_finds req w tb :
  store w = Some tb ->
  method_is (method req) "GET" = true ->
  (query_id req = None ->
     handler req w =
       (inr (json 200 (BooksBody (rows tb))),
        {| store := store w;
           accesses := accesses w ++ [{| statement := SelectAll; thrown := None |}];
           console := console w |}))
  /\ (forall x, when_truthy (parse_id (query_id req)) = Some x ->
        let w' := {| store := store w;
                     accesses := accesses w ++
                                   [{| statement := SelectById x; thrown := None |}];
                     console := console w |} in
        (forall b, keyed (store w) -> In b (rows tb) -> id_is x b = true ->
           handler req w = (inr (json 200 (BookBody (Some b))), w'))
        /\ ((forall b, In b (rows tb) -> id_is x b = false) ->
           handler req w = (inr (json 404 (ErrorBody "Book not found")), w'))).
Proof.
  intros Hs Hm. split.
  - intros Hq. rewrite (falsy_id_lists req w (rows tb) (store w)); trivial.
    + now rewrite Hq.
    + simpl. rewrite Hs. reflexivity.
  - intros x Hx w'. apply method_is_true in Hm. subst w'. split.
    + intros b Hk Hin Hb. rewrite Hs in Hk. simpl in Hk.
      step_handler. rewrite Hm, Hx. simpl. rewrite Hs. simpl.
      rewrite (find_keyed x _ b Hk Hin Hb). reflexivity.
    + intros Hnone.
      step_handler. rewrite Hm, Hx. simpl. rewrite Hs. simpl.
      destruct (find (id_is x) (rows tb)) as [b|] eqn:E; [|reflexivity].
      apply find_some in E. destruct E as [Hin Hb].
      rewrite (Hnone b Hin) in Hb. discriminate.
Qed.

(** C5. A PUT with a truthy [id] [x] and a complete body (a non-empty
    [title] and [author], a [year] that is a number other than [0] and
    [NaN]): when no row has the key [x] the answer is 404 and the table is
    the one it was; otherwise the answer is 200 with the row as it now
    stands, which has the same key, the submitted [title] and [author], and a
    [year] cell holding the submitted number.  Rows with another key are not
    touched. *)
Theorem put_updates_or_not_found req w tb x t a y :
  store w = Some tb ->
  method_is (method req) "PUT" = true ->
  when_truthy (parse_id (query_id req)) = Some x ->
  get_prop (body req) "title" = Some (VString t) ->
  get_prop (body req) "author" = Some (VString a) ->
  get_prop (body req) "year" = Some (VNumber y) ->
  t <> "" -> a <> "" -> truthy_number y = true ->
  let ran := {| statement := Update (VString t) (VString a) (VNumber y) x;
                thrown := None |} in
  ((forall b, In b (rows tb) -> id_is x b = false) ->
     handler req w =
       (inr (json 404 (ErrorBody "Book not found")),
        {| store := store w; accesses := accesses w ++ [ran];
           console := console w |}))
  /\ (forall b, keyed (store w) -> In b (rows tb) -> id_is x b = true ->
        exists c,
          holds c y
          /\ let new b' := {| id := id b'; title := Text t; author := Text a;
                              year := c |} in
             handler req w =
               (inr (json 200 (BookBody (Some (new b)))),
                {| store :=
                     Some {| rows := map (fun b' => if id_is x b' then new b' else b')
                                         (rows tb);
                             sequence := sequence tb |};
                   accesses := accesses w ++
                                 [ran; {| statement := SelectById x; thrown := None |}];
                   console := console w |})).
Proof.
  intros Hs Hm Hx Ht Ha Hy Hte Hae Hyt ran. subst ran.
  apply method_is_true in Hm.
  pose proof (truthy_not_NaN _ Hyt) as Hyn.
  assert (Hfields :
    negb (truthy (VString t)) || negb (truthy (VString a))
      || negb (truthy (VNumber y)) = false).
  { simpl. rewrite Hyt.
    apply String.eqb_neq in Hte, Hae. now rewrite Hte, Hae. }
  split.
  - intros Hnone.
    assert (E : find (id_is x) (rows tb) = None).
    { destruct (find (id_is x) (rows tb)) as [b|] eqn:E; [|reflexivity].
      apply find_some in E. destruct E as [Hin Hb].
      rewrite (Hnone b Hin) in Hb. discriminate. }
    apply find_none_filter in E. destruct E as (_ & _ & E).
    step_handler. rewrite Hm, Hx, Ht, Ha, Hy. simpl in *.
    rewrite Hfields. simpl. rewrite Hs. unfold update. simpl.
    rewrite Hyn. simpl. rewrite E. simpl. reflexivity.
  - intros b Hk Hin Hb. rewrite Hs in Hk. simpl in Hk.
    pose proof (find_keyed x _ b Hk Hin Hb) as E.
    destruct (find_some_filter _ _ _ E) as [Hex Hcount].
    destruct (integer_column_real y) as (c & Hc & Hholds).
    exists c. split; [auto|].
    intros new.
    pose proof (find_updated x (rows tb) b new (fun _ => eq_refl) E) as F.
    subst new. cbv beta in F.
    step_handler. rewrite Hm, Hx, Ht, Ha, Hy. simpl in *.
    rewrite Hfields. simpl. rewrite Hs. unfold update. simpl.
    rewrite Hyn. simpl. rewrite Hex. cbn [text_column].
    rewrite Hc. simpl. rewrite Hcount. simpl.
    rewrite F. rewrite <- app_assoc. reflexivity.
Qed.

(** The rows a DELETE leaves: those with another key, in their order. *)
Lemma filter_keyed_length x (bs : list Book) b :
  NoDup (map id bs) -> In b bs -> id_is x b = true ->
  List.length bs = S (List.length (filter (fun b' => negb (id_is x b')) bs)).
Proof.
  induction bs as [|b' bs IH]; simpl; [contradiction|].
  intros Hnd Hin Hb. inversion Hnd as [|? ? Hnotin Hnd']; subst.
  destruct (id_is x b') eqn:E; simpl.
  - f_equal.
    destruct (find (id_is x) bs) as [b''|] eqn:F.
    + exfalso. apply find_some in F. destruct F as [Hin'' Hb''].
      apply Hnotin. unfold id_is, eqb_Z in *.
      destruct (to_Z x) as [z|]; [|discriminate].
      apply Z.eqb_eq in E, Hb''. rewrite <- E, Hb''. now apply in_map.
    + apply find_none_filter in F. destruct F as (_ & -> & _). reflexivity.
  - f_equal. destruct Hin as [->|Hin]; [congruence|]. now apply IH.
Qed.

(** C6. A DELETE with a truthy [id] [x]: when no row has the key [x] the
    answer is 404 and the table is the one it was; when a row has it the
    answer is 204 with no content, the table keeps exactly the rows with
    another key, and one row, that one, is gone. *)
Theorem delete_removes_or_not_found req w tb x :
  store w = Some tb ->
  method_is (method req) "DELETE" = true ->
  when_truthy (parse_id (query_id req)) = Some x ->
  let ran := {| statement := Delete x; thrown := None |} in
  ((forall b, In b (rows tb) -> id_is x b = false) ->
     handler req w =
       (inr (json 404 (ErrorBody "Book not found")),
        {| store := store w; accesses := accesses w ++ [ran];
           console := console w |}))
  /\ (forall b, keyed (store w) -> In b (rows tb) -> id_is x b = true ->
        let left := filter (fun b' => negb (id_is x b')) (rows tb) in
        handler req w =
          (inr {| status := 204; headers := []; payload := EndBody None |},
           {| store := Some {| rows := left; sequence := sequence tb |};
              accesses := accesses w ++ [ran];
              console := console w |})
        /\ (forall b', In b' left <-> In b' (rows tb) /\ b' <> b)
        /\ List.length (rows tb) = S (List.length left)).
Proof.
  intros Hs Hm Hx ran. subst ran.
  apply method_is_true in Hm.
  split.
  - intros Hnone.
    assert (E : find (id_is x) (rows tb) = None).
    { destruct (find (id_is x) (rows tb)) as [b|] eqn:E; [|reflexivity].
      apply find_some in E. destruct E as [Hin Hb].
      rewrite (Hnone b Hin) in Hb. discriminate. }
    apply find_none_filter in E. destruct E as (E1 & E2 & _).
    step_handler. rewrite Hm, Hx. simpl. rewrite Hs. simpl.
    unfold count_where. rewrite E1, E2. simpl.
    destruct tb. reflexivity.
  - intros b Hk Hin Hb left. rewrite Hs in Hk. simpl in Hk.
    pose proof (find_keyed x _ b Hk Hin Hb) as E.
    destruct (find_some_filter _ _ _ E) as [_ Hcount].
    split; [|split].
    + step_handler. rewrite Hm, Hx. simpl. rewrite Hs. simpl.
      rewrite Hcount. reflexivity.
    + intros b'. subst left. rewrite filter_In. split.
      * intros [Hin' Hb']. split; [exact Hin'|].
        intros ->. rewrite Hb in Hb'. discriminate.
      * intros [Hin' Hne]. split; [exact Hin'|].
        destruct (id_is x b') eqn:E'; [|reflexivity].
        exfalso. apply Hne.
        pose proof (find_keyed x _ b' Hk Hin' E') as F. congruence.
    + now apply (filter_keyed_length x _ b).
Qed.

End Books.

(** *** The key is kept *)

Lemma max_id_bound (bs : list Book) b : In b bs -> id b <= max_id bs.
Proof.
  induction bs as [|b' bs IH]; simpl; [contradiction|].
  intros [->|Hin]; [lia|]. specialize (IH Hin). lia.
Qed.

Lemma keys_filter (f : Book -> bool) (bs : list Book) :
  NoDup (map id bs) -> NoDup (map id (filter f bs)).
Proof.
  induction bs as [|b bs IH]; simpl; [auto|].
  intros Hnd. inversion Hnd as [|? ? Hnotin Hnd']; subst.
  destruct (f b); simpl; [|auto].
  constructor; [|auto].
  intros Hin. apply Hnotin.
  apply in_map_iff in Hin. destruct Hin as (b' & Hid & Hin).
  apply filter_In in Hin. destruct Hin as [Hin _].
  rewrite <- Hid. now apply in_map.
Qed.

Lemma insert_keeps_key t a y db db' :
  insert t a y db = inr db' -> keyed db -> keyed db'.
Proof.
  unfold insert. destruct db as [tb|]; [|discriminate].
  destruct (bind_args 3 [t; a; y] false []) as [e|[|pt [|pa [|py [|? ?]]]]];
    try discriminate.
  destruct (text_column pt), (text_column pa), (integer_column py);
    try discriminate.
  destruct (Z.max (max_id (rows tb)) (sequence tb) <? 2 ^ 63 - 1);
    [|discriminate].
  intros [= <-]. simpl. intros Hk.
  rewrite map_app. simpl. apply NoDup_app; [exact Hk | repeat constructor; auto|].
  intros z Hin [<-|[]].
  apply in_map_iff in Hin. destruct Hin as (b & Hid & Hin).
  apply max_id_bound in Hin. lia.
Qed.

Lemma update_keeps_key t a y x db n db' :
  update t a y x db = inr (n, db') -> keyed db -> keyed db'.
Proof.
  unfold update. destruct db as [tb|]; [|discriminate].
  destruct (bind_args 4 [t; a; y; VNumber x] false [])
    as [e|[|pt [|pa [|py ?]]]]; try discriminate.
  destruct (existsb (id_is x) (rows tb)); [|now intros [= <- <-]].
  destruct (text_column pt), (text_column pa), (integer_column py);
    try discriminate.
  intros [= <- <-]. simpl. intros Hk.
  rewrite map_map.
  erewrite map_ext; [exact Hk|].
  intros b. simpl. now destruct (id_is x b).
Qed.

Lemma delete_keeps_key x db n db' :
  delete x db = inr (n, db') -> keyed db -> keyed db'.
Proof.
  unfold delete. destruct db as [tb|]; [|discriminate].
  intros [= <- <-]. simpl. apply keys_filter.
Qed.

(** Whatever the request, the table the handler leaves has [id] as its key
    if the table it found had. *)
Lemma handler_keeps_key (req : Request) (w : world database) :
  keyed (store w) -> keyed (store (snd (handler req w))).
Proof.
  intros Hk. step_handler.
  destruct (method_is (method req) "GET").
  { destruct (when_truthy _) as [x|]; simpl.
    - destruct (select_by_id x (store w)) as [e|[b|]]; simpl; exact Hk.
    - destruct (select_all (store w)) as [e|bs]; simpl; exact Hk. }
  destruct (method_is (method req) "PUT").
  { destruct (when_truthy _) as [x|]; simpl; [|exact Hk].
    destruct (get_prop (body req) "title") as [t|]; simpl; [|exact Hk].
    destruct (get_prop (body req) "author") as [a|]; simpl; [|exact Hk].
    destruct (get_prop (body req) "year") as [y|]; simpl; [|exact Hk].
    destruct (negb (truthy t) || negb (truthy a) || negb (truthy y)); simpl;
      [exact Hk|].
    destruct (update t a y x (store w)) as [e|[n db']] eqn:E; simpl;
      [exact Hk|].
    apply update_keeps_key in E; [|exact Hk].
    destruct (n =? 0); simpl; [exact E|].
    destruct (select_by_id x db') as [e|b]; simpl; exact E. }
  destruct (method_is (method req) "DELETE").
  { destruct (when_truthy _) as [x|]; simpl; [|exact Hk].
    destruct (delete x (store w)) as [e|[n db']] eqn:E; simpl; [exact Hk|].
    apply delete_keeps_key in E; [|exact Hk].
    destruct (n =? 0); simpl; exact E. }
  exact Hk.
Qed.

(** *** Module initialisation *)

Lemma insert_fills t a y db db' :
  insert t a y db = inr db' -> exists tb, db' = Some tb /\ rows tb <> [].
Proof.
  unfold insert. destruct db as [tb|]; [|discriminate].
  destruct (bind_args 3 [t; a; y] false []) as [e|[|pt [|pa [|py [|? ?]]]]];
    try discriminate.
  destruct (text_column pt), (text_column pa), (integer_column py);
    try discriminate.
  destruct (Z.max (max_id (rows tb)) (sequence tb) <? 2 ^ 63 - 1);
    [|discriminate].
  intros [= <-]. eexists. split; [reflexivity|]. simpl.
  intros H. now apply app_eq_nil in H.
Qed.

Lemma insert_all_fills books db db' :
  insert_all books db = inr db' ->
  books <> [] \/ (exists tb, db = Some tb /\ rows tb <> []) ->
  exists tb, db' = Some tb /\ rows tb <> [].
Proof.
  revert db. induction books as [|[[t a] y] books IH]; simpl; intros db.
  - intros [= <-] [H|H]; [congruence|exact H].
  - destruct (insert _ _ _ db) as [e|db1] eqn:E; [discriminate|].
    intros H _. apply (IH db1 H). right. exact (insert_fills _ _ _ _ _ E).
Qed.

Lemma insert_all_keeps_key books db db' :
  insert_all books db = inr db' -> keyed db -> keyed db'.
Proof.
  revert db. induction books as [|[[t a] y] books IH]; simpl; intros db.
  - now intros [= <-].
  - destruct (insert _ _ _ db) as [e|db1] eqn:E; [discriminate|].
    intros H Hk. apply (IH db1 H). exact (insert_keeps_key _ _ _ _ _ E Hk).
Qed.

(** What a successful load leaves: the directory, and a file holding a
    table that is not empty. *)
Lemma initialise_leaves d d' :
  initialise d = inr d' ->
  exists tb, d' = {| data_dir := true; books_db := Some (Some tb) |}
             /\ rows tb <> [].
Proof.
  unfold initialise, existsSync.
  assert (Hdir : data_dir (if negb (data_dir d) then mkdirSync d else d) = true).
  { destruct (data_dir d) eqn:E; simpl; auto. }
  set (d1 := if negb (data_dir d) then mkdirSync d else d) in *.
  destruct (create_table (open d1)) as [tb|] eqn:Ec.
  2:{ unfold create_table in Ec. destruct (open d1); discriminate. }
  cbn [select_count]. destruct (Z.of_nat (List.length (rows tb)) =? 0) eqn:E0.
  - destruct (insert_all fakeBooks (Some tb)) as [e|db'] eqn:Ei;
      [intros H; discriminate H|].
    intros [= <-].
    destruct (insert_all_fills _ _ _ Ei) as (tb' & -> & Hne).
    { left. discriminate. }
    exists tb'. rewrite Hdir. auto.
  - intros [= <-]. exists tb. rewrite Hdir. split; [reflexivity|].
    intros H. rewrite H in E0. discriminate.
Qed.

(** A load keeps [id] a key: if no two rows of the file shared one, none
    do in what a successful load leaves. *)
Lemma initialise_keeps_key d d' :
  initialise d = inr d' -> keyed (open d) -> keyed (open d').
Proof.
  unfold initialise, existsSync.
  assert (Hopen : open (if negb (data_dir d) then mkdirSync d else d) = open d).
  { destruct (data_dir d); reflexivity. }
  set (d1 := if negb (data_dir d) then mkdirSync d else d) in *.
  intros H Hk.
  assert (Hk1 : keyed (create_table (open d1))).
  { rewrite Hopen. destruct (open d); simpl; [exact Hk|constructor]. }
  destruct (select_count (create_table (open d1))) as [e|c]; [discriminate H|].
  destruct (c =? 0).
  - destruct (insert_all fakeBooks _) as [e|db'] eqn:Ei; [discriminate H|].
    injection H as <-. simpl. exact (insert_all_keeps_key _ _ _ Ei Hk1).
  - injection H as <-. simpl. exact Hk1.
Qed.

(** C3. Loading the module on a disk with no [data] directory creates the
    table with the three seed rows; loading it again succeeds (the table
    being there is no error) and leaves the same three rows; and whatever
    the disk held, a load that follows a successful load changes
    nothing, so the seed rows are never inserted twice. *)
Theorem initialise_idempotent :
  initialise empty_disk = inr seeded_disk
  /\ initialise seeded_disk = inr seeded_disk
  /\ (exists tb, open seeded_disk = Some tb /\ rows tb = seed_rows
                 /\ List.length (rows tb) = 3%nat)
  /\ (forall d d', initialise d = inr d' -> initialise d' = inr d').
Proof.
  split; [reflexivity|]. split; [reflexivity|]. split.
  { eexists. repeat split. }
  intros d d' H.
  destruct (initialise_leaves _ _ H) as (tb & -> & Hne).
  unfold initialise. simpl.
  destruct (rows tb) as [|b bs] eqn:E; [congruence|]. simpl.
  reflexivity.
Qed.

(** *** Two requests, run *)

(** C1. A GET whose identifier token is [abc]: the token does not parse
    ([Number] gives [NaN]), yet the answer is 200 with the whole table, read
    by [SELECT * FROM books], and not 400. *)
Theorem get_non_numeric_id_lists_books :
  Number "abc" = NaN
  /\ handler {| method := Some "GET"; query_id := Some (QArray ["abc"]);
                body := VUndefined |} (start seeded)
     = (inr (json 200 (BooksBody seed_rows)),
        {| store := seeded;
           accesses := [{| statement := SelectAll; thrown := None |}];
           console := [] |}).
Proof. split; reflexivity. Qed.

(** C4. A PUT for identifier [1] whose body is [null]: [title], [author] and
    [year] are all missing, yet the answer is 500 and not 400; the
    destructuring throws inside the [try].  The table is not touched. *)
Theorem put_null_body_is_500 :
  handler {| method := Some "PUT"; query_id := Some (QArray ["1"]);
             body := VNull |} (start seeded)
  = (inr (json 500 (ErrorBody "Failed to update book")),
     {| store := seeded;
        accesses := [];
        console := [("Error updating book:",
                     TypeError "Cannot destructure property 'title' of 'req.body'")] |}).
Proof. reflexivity. Qed.


(** *** The theorems at work on the seeded table *)

Lemma seeded_keyed : keyed seeded.
Proof.
  simpl. repeat constructor; simpl; intuition discriminate.
Defined.

Lemma initialise_idempotent_witness :
  initialise empty_disk = inr seeded_disk
  /\ initialise seeded_disk = inr seeded_disk.
Proof.
  split; [reflexivity|].
  destruct initialise_idempotent as (_ & _ & _ & H).
  apply (H empty_disk). reflexivity.
Defined.

Lemma zero_id_is_absent_id_witness :
  parse_id (Some (QArray ["0"])) = Some (S754_zero false)
  /\ handler {| method := Some "DELETE"; query_id := Some (QArray ["0"]);
                body := VUndefined |} (start seeded)
     = (inr (json 400 (ErrorBody "Missing book ID")), start seeded).
Proof.
  split; [reflexivity|].
  destruct (zero_id_is_absent_id (D := sqlite)
              {| method := Some "DELETE"; query_id := Some (QArray ["0"]);
                 body := VUndefined |} (start seeded) false eq_refl)
    as (_ & _ & H).
  apply H. right. reflexivity.
Defined.

(** A GET on a file in which the table is missing: the statement throws. *)
Lemma store_exception_is_generic_500_witness :
  handler {| method := Some "GET"; query_id := None; body := VUndefined |}
          (start None)
  = (inr (json 500 (ErrorBody "Failed to fetch books")),
     {| store := None;
        accesses := [{| statement := SelectAll; thrown := Some no_such_table |}];
        console := [("Error fetching books:", no_such_table)] |})
  /\ status (json 500 (ErrorBody "Failed to fetch books")) = 500
  /\ In (payload (json 500 (ErrorBody "Failed to fetch books"))) failure_bodies
  /\ exists label, [("Error fetching books:", no_such_table)]
                   = [] ++ [(label, no_such_table)].
Proof.
  split; [reflexivity|].
  apply (store_exception_is_generic_500 (D := sqlite)
           {| method := Some "GET"; query_id := None; body := VUndefined |}
           (start None) _
           {| store := None;
              accesses := [{| statement := SelectAll; thrown := Some no_such_table |}];
              console := [("Error fetching books:", no_such_table)] |}
           [{| statement := SelectAll; thrown := Some no_such_table |}]
           SelectAll no_such_table).
  - reflexivity.
  - reflexivity.
  - left. reflexivity.
Defined.

Lemma get_lists_or_finds_witness :
  handler {| method := Some "GET"; query_id := Some (QArray ["2"]);
             body := VUndefined |} (start seeded)
  = (inr (json 200 (BookBody (Some
       {| id := 2; title := Text "1984"; author := Text "George Orwell";
          year := Integer 1949 |}))),
     {| store := seeded;
        accesses := [{| statement := SelectById (Number "2"); thrown := None |}];
        console := [] |}).
Proof.
  destruct (get_lists_or_finds
              {| method := Some "GET"; query_id := Some (QArray ["2"]);
                 body := VUndefined |} (start seeded)
              {| rows := seed_rows; sequence := 3 |} eq_refl eq_refl)
    as [_ H].
  destruct (H (Number "2") eq_refl) as [H1 _].
  apply H1.
  - exact seeded_keyed.
  - right. left. reflexivity.
  - reflexivity.
Defined.

Lemma put_updates_or_not_found_witness :
  exists c,
    holds c (of_Z 2000)
    /\ handler {| method := Some "PUT"; query_id := Some (QArray ["2"]);
                  body := VObject [ ("title", VString "1984");
                                    ("author", VString "George Orwell");
                                    ("year", VNumber (of_Z 2000)) ] |}
               (start seeded)
       = (inr (json 200 (BookBody (Some
            {| id := 2; title := Text "1984"; author := Text "George Orwell";
               year := c |}))),
          {| store :=
               Some {| rows :=
                         [ {| id := 1; title := Text "The Great Gatsby";
                              author := Text "F. Scott Fitzgerald";
                              year := Integer 1925 |};
                           {| id := 2; title := Text "1984";
                              author := Text "George Orwell"; year := c |};
                           {| id := 3; title := Text "To Kill a Mockingbird";
                              author := Text "Harper Lee"; year := Integer 1960 |} ];
                       sequence := 3 |};
             accesses :=
               [ {| statement := Update (VString "1984") (VString "George Orwell")
                                        (VNumber (of_Z 2000)) (Number "2");
                    thrown := None |};
                 {| statement := SelectById (Number "2"); thrown := None |} ];
             console := [] |}).
Proof.
  destruct (put_updates_or_not_found
              {| method := Some "PUT"; query_id := Some (QArray ["2"]);
                 body := VObject [ ("title", VString "1984");
                                   ("author", VString "George Orwell");
                                   ("year", VNumber (of_Z 2000)) ] |}
              (start seeded) {| rows := seed_rows; sequence := 3 |}
              (Number "2") "1984" "George Orwell" (of_Z 2000)
              eq_refl eq_refl eq_refl eq_refl eq_refl eq_refl
              ltac:(discriminate) ltac:(discriminate) eq_refl)
    as [_ H].
  destruct (H {| id := 2; title := Text "1984"; author := Text "George Orwell";
                 year := Integer 1949 |} seeded_keyed)
    as (c & Hc & Hrun).
  - right. left. reflexivity.
  - reflexivity.
  - exists c. split; [exact Hc | exact Hrun].
Defined.

Lemma delete_removes_or_not_found_witness :
  handler {| method := Some "DELETE"; query_id := Some (QArray ["1"]);
             body := VUndefined |} (start seeded)
  = (inr {| status := 204; headers := []; payload := EndBody None |},
     {| store := Some {| rows := tl seed_rows; sequence := 3 |};
        accesses := [{| statement := Delete (Number "1"); thrown := None |}];
        console := [] |}).
Proof.
  destruct (delete_removes_or_not_found
              {| method := Some "DELETE"; query_id := Some (QArray ["1"]);
                 body := VUndefined |} (start seeded)
              {| rows := seed_rows; sequence := 3 |} (Number "1")
              eq_refl eq_refl eq_refl)
    as [_ H].
  destruct (H {| id := 1; title := Text "The Great Gatsby";
                 author := Text "F. Scott Fitzgerald"; year := Integer 1925 |})
    as [H1 _].
  - exact seeded_keyed.
  - left. reflexivity.
  - reflexivity.
  - exact H1.
Defined.

(* ----------------------------------------------------------------- *)
(** *** What every request gets, whatever the store *)

Section Answers.

Context {DB : Type} {D : Database DB}.

Implicit Types (req : Request) (w : world DB).

(** A method other than GET, PUT and DELETE is answered 405 with the
    [Allow] header naming the three and the text [Method M Not Allowed];
    this comes before any look at the store, whatever the identifier is. *)
Theorem other_method_not_allowed req w :
  method_is (method req) "GET" = false ->
  method_is (method req) "PUT" = false ->
  method_is (method req) "DELETE" = false ->
  handler req w =
    (inr {| status := 405;
            headers := [("Allow", ["GET"; "PUT"; "DELETE"])];
            payload := EndBody (Some ("Method " ++ method_text (method req)
                                        ++ " Not Allowed")%string) |},
     w).
Proof.
  intros Hg Hp Hd. step_handler. rewrite Hg, Hp, Hd. reflexivity.
Qed.

(** Every request is answered, no exception leaves the handler, and the
    status is one the method allows: 200, 404 or 500 for GET; 200, 400, 404
    or 500 for PUT; 204, 400, 404 or 500 for DELETE; 405 for anything
    else. *)
Theorem status_by_method req w :
  exists resp w',
    handler req w = (inr resp, w')
    /\ In (status resp) (statuses (method req)).
Proof.
  unfold statuses. step_handler.
  destruct (method_is (method req) "GET").
  { destruct (when_truthy _) as [x|]; simpl.
    - destruct (db_get x (store w)) as [[e|[b|]] db']; simpl;
        do 2 eexists; (split; [reflexivity | simpl; tauto]).
    - destruct (db_all (store w)) as [[e|bs] db']; simpl;
        do 2 eexists; (split; [reflexivity | simpl; tauto]). }
  destruct (method_is (method req) "PUT").
  { destruct (when_truthy _) as [x|]; simpl;
      [|do 2 eexists; (split; [reflexivity | simpl; tauto])].
    destruct (get_prop (body req) "title") as [t|]; simpl;
      [|do 2 eexists; (split; [reflexivity | simpl; tauto])].
    destruct (get_prop (body req) "author") as [a|]; simpl;
      [|do 2 eexists; (split; [reflexivity | simpl; tauto])].
    destruct (get_prop (body req) "year") as [y|]; simpl;
      [|do 2 eexists; (split; [reflexivity | simpl; tauto])].
    destruct (negb (truthy t) || negb (truthy a) || negb (truthy y)); simpl;
      [do 2 eexists; (split; [reflexivity | simpl; tauto])|].
    destruct (db_update t a y x (store w)) as [[e|n] db']; simpl;
      [do 2 eexists; (split; [reflexivity | simpl; tauto])|].
    destruct (n =? 0); simpl;
      [do 2 eexists; (split; [reflexivity | simpl; tauto])|].
    destruct (db_get x db') as [[e|b] db'']; simpl;
      do 2 eexists; (split; [reflexivity | simpl; tauto]). }
  destruct (method_is (method req) "DELETE").
  { destruct (when_truthy _) as [x|]; simpl;
      [|do 2 eexists; (split; [reflexivity | simpl; tauto])].
    destruct (db_delete x (store w)) as [[e|n] db']; simpl;
      [do 2 eexists; (split; [reflexivity | simpl; tauto])|].
    destruct (n =? 0); simpl;
      do 2 eexists; (split; [reflexivity | simpl; tauto]). }
  do 2 eexists; (split; [reflexivity | simpl; tauto]).
Qed.

(** A request runs at most two statements, and only those of its method:
    a GET only SELECTs, an UPDATE is run only for a PUT, a DELETE only for a
    DELETE, and any other method runs nothing. *)
Theorem statements_by_method req w :
  exists new,
    accesses (snd (handler req w)) = accesses w ++ new
    /\ (List.length new <= 2)%nat
    /\ forall a, In a new -> permitted (method req) (statement a) = true.
Proof.
  step_handler.
  destruct (method_is (method req) "GET") eqn:Hg.
  { destruct (when_truthy _) as [x|]; simpl.
    - destruct (db_get x (store w)) as [[e|[b|]] db']; simpl;
        ran_statements Hg.
    - destruct (db_all (store w)) as [[e|bs] db']; simpl;
        ran_statements Hg. }
  destruct (method_is (method req) "PUT") eqn:Hp.
  { destruct (when_truthy _) as [x|]; simpl; [|ran_statements Hp].
    destruct (get_prop (body req) "title") as [t|]; simpl;
      [|ran_statements Hp].
    destruct (get_prop (body req) "author") as [a|]; simpl;
      [|ran_statements Hp].
    destruct (get_prop (body req) "year") as [y|]; simpl;
      [|ran_statements Hp].
    destruct (negb (truthy t) || negb (truthy a) || negb (truthy y)); simpl;
      [ran_statements Hp|].
    destruct (db_update t a y x (store w)) as [[e|n] db']; simpl;
      [ran_statements Hp|].
    destruct (n =? 0); simpl; [ran_statements Hp|].
    destruct (db_get x db') as [[e|b] db'']; simpl; ran_statements Hp. }
  destruct (method_is (method req) "DELETE") eqn:Hd.
  { destruct (when_truthy _) as [x|]; simpl; [|ran_statements Hd].
    destruct (db_delete x (store w)) as [[e|n] db']; simpl;
      [ran_statements Hd|].
    destruct (n =? 0); simpl; ran_statements Hd. }
  ran_statements Hd.
Qed.

End Answers.

Lemma other_method_not_allowed_witness :
  handler {| method := Some "POST"; query_id := Some (QArray ["abc"]);
             body := VUndefined |} (start seeded)
  = (inr {| status := 405;
            headers := [("Allow", ["GET"; "PUT"; "DELETE"])];
            payload := EndBody (Some "Method POST Not Allowed") |},
     start seeded).
Proof.
  exact (other_method_not_allowed (D := sqlite)
           {| method := Some "POST"; query_id := Some (QArray ["abc"]);
              body := VUndefined |} (start seeded) eq_refl eq_refl eq_refl).
Defined.

Lemma invalid_id_never_reported_witness :
  payload (json 400 (ErrorBody "Missing book ID")) <> ErrorBody "Invalid ID format".
Proof.
  apply (invalid_id_never_reported (D := sqlite)
           {| method := Some "DELETE"; query_id := Some (QArray ["1x"]);
              body := VUndefined |} (start seeded) _ (start seeded)).
  reflexivity.
Defined.

(** A PUT for book 2 whose [year] is the number [0]. *)
Lemma put_missing_field_refused_witness :
  handler {| method := Some "PUT"; query_id := Some (QArray ["2"]);
             body := VObject [ ("title", VString "1984");
                               ("author", VString "George Orwell");
                               ("year", VNumber (of_Z 0)) ] |} (start seeded)
  = (inr (json 400 (ErrorBody "Missing required fields")), start seeded).
Proof.
  apply (put_missing_field_refused (D := sqlite) _ _ (Number "2")
           (VString "1984") (VString "George Orwell") (VNumber (of_Z 0)));
    try reflexivity.
  right. right. reflexivity.
Defined.

(** A PUT for book 2 sent without a readable body. *)
Lemma put_unreadable_body_witness :
  exists e,
    handler {| method := Some "PUT"; query_id := Some (QArray ["2"]);
               body := VUndefined |} (start seeded)
    = (inr (json 500 (ErrorBody "Failed to update book")),
       {| store := seeded; accesses := [];
          console := [] ++ [("Error updating book:", e)] |}).
Proof.
  apply (put_unreadable_body (D := sqlite)
           {| method := Some "PUT"; query_id := Some (QArray ["2"]);
              body := VUndefined |} (start seeded) (Number "2"));
    [reflexivity | reflexivity | right; reflexivity].
Defined.

(** When [req.query.id] is a single string, only its first character is
    read: the identifier is then one of [1] to [9], or it is falsy. *)
Theorem string_id_is_one_digit s x :
  when_truthy (parse_id (Some (QString s))) = Some x ->
  exists d, 1 <= d <= 9 /\ x = of_Z d.
Proof.
  destruct s as [|c rest]; [discriminate|].
  intros H.
  destruct c as [[] [] [] [] [] [] [] []]; vm_compute in H;
    try discriminate H; injection H as <-;
    first [ exists 1; split; [lia|reflexivity]
          | exists 2; split; [lia|reflexivity]
          | exists 3; split; [lia|reflexivity]
          | exists 4; split; [lia|reflexivity]
          | exists 5; split; [lia|reflexivity]
          | exists 6; split; [lia|reflexivity]
          | exists 7; split; [lia|reflexivity]
          | exists 8; split; [lia|reflexivity]
          | exists 9; split; [lia|reflexivity] ].
Qed.

Lemma string_id_is_one_digit_witness :
  exists d, 1 <= d <= 9 /\ Number "1" = of_Z d.
Proof.
  exact (string_id_is_one_digit "12" (Number "1") eq_refl).
Defined.

(* ----------------------------------------------------------------- *)
(** *** What a request does to the [books] table *)

Section Table.

Implicit Types (req : Request) (w : world database) (tb : table) (x : number).

Lemma exists_counted x (bs : list Book) :
  existsb (id_is x) bs = true -> count_where (id_is x) bs <> 0.
Proof.
  unfold count_where.
  induction bs as [|b bs IH]; simpl; [discriminate|].
  destruct (id_is x b); simpl; [lia|exact IH].
Qed.


Lemma find_after_delete x (bs : list Book) :
  find (id_is x) (filter (fun b => negb (id_is x b)) bs) = None.
Proof.
  induction bs as [|b bs IH]; simpl; [reflexivity|].
  destruct (id_is x b) eqn:E; simpl; [exact IH|].
  now rewrite E.
Qed.

(** What a successful UPDATE leaves: the same keys in the same order, the
    same sequence, and every row with another key as it was. *)
Lemma update_result t a y x db n db' :
  update t a y x db = inr (n, db') ->
  exists tb tb',
    db = Some tb /\ db' = Some tb'
    /\ sequence tb' = sequence tb
    /\ map id (rows tb') = map id (rows tb)
    /\ (forall b, id_is x b = false -> In b (rows tb) <-> In b (rows tb'))
    /\ (n = 0 -> db' = db)
    /\ (n <> 0 -> find (id_is x) (rows tb') <> None).
Proof.
  unfold update. destruct db as [tb|]; [|discriminate].
  destruct (bind_args 4 [t; a; y; VNumber x] false [])
    as [e|[|pt [|pa [|py ?]]]]; try discriminate.
  destruct (existsb (id_is x) (rows tb)) eqn:Ex.
  - destruct (text_column pt) as [ct|], (text_column pa) as [ca|],
      (integer_column py) as [cy|]; try discriminate.
    intros [= <- <-]. exists tb. eexists.
    split; [reflexivity|]. split; [reflexivity|]. split; [reflexivity|].
    simpl. split; [|split; [|split]].
    + rewrite map_map. apply map_ext. intros b. now destruct (id_is x b).
    + intros b Hb. split.
      * intros Hin. apply in_map_iff. exists b. now rewrite Hb.
      * intros Hin. apply in_map_iff in Hin. destruct Hin as (b0 & Hb0 & Hin).
        destruct (id_is x b0) eqn:E0; [|now subst].
        subst b. unfold id_is in *. simpl in Hb. congruence.
    + intros H0. now apply exists_counted in Ex.
    + intros _.
      destruct (find (id_is x) (rows tb)) as [b0|] eqn:F.
      * erewrite find_updated; [discriminate | reflexivity | exact F].
      * apply find_none_filter in F. destruct F as (_ & _ & F). congruence.
  - intros [= <- <-]. exists tb, tb.
    split; [reflexivity|]. split; [reflexivity|]. split; [reflexivity|].
    split; [reflexivity|]. split; [tauto|]. split; [reflexivity|].
    intros H. now contradiction H.
Qed.

(** What a DELETE leaves. *)
Lemma delete_result x db n db' :
  delete x db = inr (n, db') ->
  exists tb,
    db = Some tb
    /\ db' = Some {| rows := filter (fun b => negb (id_is x b)) (rows tb);
                     sequence := sequence tb |}
    /\ n = count_where (id_is x) (rows tb).
Proof.
  unfold delete. destruct db as [tb|]; [|discriminate].
  intros [= <- <-]. eauto.
Qed.



(** No request creates a row, renumbers one or drops the table: after any
    request the table is still there, its sequence is the same, and the
    keys it holds are among those it held. *)
Theorem handler_never_inserts req w tb :
  store w = Some tb ->
  exists tb',
    store (snd (handler req w)) = Some tb'
    /\ sequence tb' = sequence tb
    /\ incl (map id (rows tb')) (map id (rows tb))
    /\ (List.length (rows tb') <= List.length (rows tb))%nat.
Proof.
  intros Hs.
  assert (Hsame : exists tb', store w = Some tb'
            /\ sequence tb' = sequence tb
            /\ incl (map id (rows tb')) (map id (rows tb))
            /\ (List.length (rows tb') <= List.length (rows tb))%nat).
  { exists tb. repeat split; auto using incl_refl. }
  step_handler.
  destruct (method_is (method req) "GET").
  { destruct (when_truthy _) as [x|]; simpl.
    - destruct (select_by_id x (store w)) as [e|[b|]]; simpl; exact Hsame.
    - destruct (select_all (store w)) as [e|bs]; simpl; exact Hsame. }
  destruct (method_is (method req) "PUT").
  { destruct (when_truthy _) as [x|]; simpl; [|exact Hsame].
    destruct (get_prop (body req) "title") as [t|]; simpl; [|exact Hsame].
    destruct (get_prop (body req) "author") as [a|]; simpl; [|exact Hsame].
    destruct (get_prop (body req) "year") as [y|]; simpl; [|exact Hsame].
    destruct (negb (truthy t) || negb (truthy a) || negb (truthy y)); simpl;
      [exact Hsame|].
    destruct (update t a y x (store w)) as [e|[n db']] eqn:E; simpl;
      [exact Hsame|].
    destruct (update_result _ _ _ _ _ _ _ E)
      as (tb0 & tb' & Hs0 & -> & Hseq & Hids & _).
    assert (tb0 = tb) as -> by congruence.
    assert (Hkept : exists tb'', Some tb' = Some tb''
              /\ sequence tb'' = sequence tb
              /\ incl (map id (rows tb'')) (map id (rows tb))
              /\ (List.length (rows tb'') <= List.length (rows tb))%nat).
    { exists tb'. repeat split; auto.
      - rewrite Hids. apply incl_refl.
      - rewrite <- (length_map id (rows tb')), Hids, length_map. lia. }
    destruct (n =? 0); simpl; [exact Hkept|].
    destruct (select_by_id x (Some tb')) as [e|b]; simpl; exact Hkept. }
  destruct (method_is (method req) "DELETE").
  { destruct (when_truthy _) as [x|]; simpl; [|exact Hsame].
    destruct (delete x (store w)) as [e|[n db']] eqn:E; simpl; [exact Hsame|].
    destruct (delete_result _ _ _ _ E) as (tb0 & Hs0 & -> & _).
    assert (tb0 = tb) as -> by congruence.
    assert (Hkept : exists tb'',
              Some {| rows := filter (fun b => negb (id_is x b)) (rows tb);
                      sequence := sequence tb |} = Some tb''
              /\ sequence tb'' = sequence tb
              /\ incl (map id (rows tb'')) (map id (rows tb))
              /\ (List.length (rows tb'') <= List.length (rows tb))%nat).
    { eexists. repeat split; simpl.
      - apply incl_map. apply incl_filter.
      - apply filter_length_le. }
    destruct (n =? 0); simpl; exact Hkept. }
  exact Hsame.
Qed.

(** A request touches only the rows whose key is its identifier: every row
    with another key is in the table afterwards exactly if it was before.
    A request without a truthy identifier touches no row at all. *)
Theorem handler_touches_only_its_id req w tb tb' b :
  store w = Some tb ->
  store (snd (handler req w)) = Some tb' ->
  (forall x, when_truthy (parse_id (query_id req)) = Some x -> id_is x b = false) ->
  In b (rows tb) <-> In b (rows tb').
Proof.
  intros Hs. step_handler.
  assert (Hsame : store w = Some tb' -> In b (rows tb) <-> In b (rows tb')).
  { intros H. assert (tb' = tb) as -> by congruence. reflexivity. }
  destruct (method_is (method req) "GET").
  { destruct (when_truthy _) as [x|]; simpl.
    - destruct (select_by_id x (store w)) as [e|[b0|]]; simpl; auto.
    - destruct (select_all (store w)) as [e|bs]; simpl; auto. }
  destruct (method_is (method req) "PUT").
  { destruct (when_truthy _) as [x|]; simpl; [|auto].
    destruct (get_prop (body req) "title") as [t|]; simpl; [|auto].
    destruct (get_prop (body req) "author") as [a|]; simpl; [|auto].
    destruct (get_prop (body req) "year") as [y|]; simpl; [|auto].
    destruct (negb (truthy t) || negb (truthy a) || negb (truthy y)); simpl;
      [auto|].
    destruct (update t a y x (store w)) as [e|[n db']] eqn:E; simpl; [auto|].
    destruct (update_result _ _ _ _ _ _ _ E)
      as (tb0 & tb1 & Hs0 & -> & _ & _ & Hframe & _).
    assert (tb0 = tb) as -> by congruence.
    assert (Hkept : Some tb1 = Some tb' ->
              (forall x0, Some x = Some x0 -> id_is x0 b = false) ->
              In b (rows tb) <-> In b (rows tb')).
    { intros [= <-] Hb. apply Hframe. now apply Hb. }
    destruct (n =? 0); simpl; [exact Hkept|].
    destruct (select_by_id x (Some tb1)) as [e|b0]; simpl; exact Hkept. }
  destruct (method_is (method req) "DELETE").
  { destruct (when_truthy _) as [x|]; simpl; [|auto].
    destruct (delete x (store w)) as [e|[n db']] eqn:E; simpl; [auto|].
    destruct (delete_result _ _ _ _ E) as (tb0 & Hs0 & -> & _).
    assert (tb0 = tb) as -> by congruence.
    assert (Hkept :
              Some {| rows := filter (fun b => negb (id_is x b)) (rows tb);
                      sequence := sequence tb |} = Some tb' ->
              (forall x0, Some x = Some x0 -> id_is x0 b = false) ->
              In b (rows tb) <-> In b (rows tb')).
    { intros [= <-] Hb. simpl. rewrite filter_In.
      rewrite (Hb x eq_refl). simpl. tauto. }
    destruct (n =? 0); simpl; exact Hkept. }
  auto.
Qed.

End Table.

(* ----------------------------------------------------------------- *)
(** *** Requests one after another *)

Section Sequences.

Implicit Types (req : Request) (w : world database) (tb : table) (x : number).

Lemma rewritten_again x (new : Book -> Book) (bs : list Book) :
  (forall b, id (new b) = id b) ->
  (forall b, new (new b) = new b) ->
  let f b := if id_is x b then new b else b in
  map f (map f bs) = map f bs
  /\ existsb (id_is x) (map f bs) = existsb (id_is x) bs
  /\ count_where (id_is x) (map f bs) = count_where (id_is x) bs.
Proof.
  intros Hid Hnew f. unfold count_where.
  assert (Hf : forall b, id_is x (f b) = id_is x b).
  { intros b. unfold f. destruct (id_is x b) eqn:E; [|exact E].
    unfold id_is in *. now rewrite Hid. }
  induction bs as [|b bs (IH1 & IH2 & IH3)]; simpl; [auto|].
  rewrite IH1, IH2, Hf. repeat split.
  - f_equal. unfold f at 1. rewrite Hf. unfold f.
    destruct (id_is x b); [apply Hnew|reflexivity].
  - destruct (id_is x b); simpl; lia.
Qed.

(** Running the same UPDATE again changes as many rows and leaves the
    table it had left. *)
Lemma update_twice t a y x db n db' :
  update t a y x db = inr (n, db') -> update t a y x db' = inr (n, db').
Proof.
  unfold update. destruct db as [tb|]; [|discriminate].
  destruct (bind_args 4 [t; a; y; VNumber x] false [])
    as [e|[|pt [|pa [|py ?]]]]; try discriminate.
  destruct (existsb (id_is x) (rows tb)) eqn:Ex.
  - destruct (text_column pt) as [ct|], (text_column pa) as [ca|],
      (integer_column py) as [cy|]; try discriminate.
    intros [= <- <-]. simpl.
    destruct (rewritten_again x
                (fun b => {| id := id b; title := ct; author := ca; year := cy |})
                (rows tb)) as (H1 & H2 & H3); try reflexivity.
    cbv beta zeta in H1, H2, H3. rewrite H1, H2, H3, Ex. reflexivity.
  - intros [= <- <-]. now rewrite Ex.
Qed.

Lemma deleted_again x (bs : list Book) :
  let kept := filter (fun b => negb (id_is x b)) bs in
  filter (fun b => negb (id_is x b)) kept = kept
  /\ count_where (id_is x) kept = 0.
Proof.
  unfold count_where.
  induction bs as [|b bs [IH1 IH2]]; simpl; [auto|].
  destruct (id_is x b) eqn:E; simpl; [auto|].
  rewrite E. simpl. rewrite IH1. auto.
Qed.

(** Sending a request a second time changes nothing more in the table, and
    a GET or PUT sent twice is answered the same both times. *)
Theorem repeating_changes_nothing_more req w :
  let w1 := snd (handler req w) in
  store (snd (handler req w1)) = store w1
  /\ (method_is (method req) "DELETE" = false ->
      fst (handler req w1) = fst (handler req w)).
Proof.
  intros w1. subst w1. step_handler.
  destruct (method_is (method req) "GET").
  { destruct (when_truthy _) as [x|]; simpl.
    - destruct (select_by_id x (store w)) as [e|[b|]] eqn:E; simpl;
        rewrite E; simpl; auto.
    - destruct (select_all (store w)) as [e|bs] eqn:E; simpl;
        rewrite E; simpl; auto. }
  destruct (method_is (method req) "PUT").
  { destruct (when_truthy _) as [x|]; simpl; [|auto].
    destruct (get_prop (body req) "title") as [t|]; simpl; [|auto].
    destruct (get_prop (body req) "author") as [a|]; simpl; [|auto].
    destruct (get_prop (body req) "year") as [y|]; simpl; [|auto].
    destruct (negb (truthy t) || negb (truthy a) || negb (truthy y)); simpl;
      [auto|].
    destruct (update t a y x (store w)) as [e|[n db']] eqn:E; simpl.
    - rewrite E. simpl. auto.
    - pose proof (update_twice _ _ _ _ _ _ _ E) as E'.
      destruct (n =? 0) eqn:En; simpl.
      + rewrite E'. simpl. rewrite En. simpl. auto.
      + destruct (select_by_id x db') as [e|b] eqn:F; simpl;
          rewrite E'; simpl; rewrite En; simpl; rewrite F; simpl; auto. }
  destruct (method_is (method req) "DELETE").
  { split; [|discriminate].
    destruct (when_truthy _) as [x|]; simpl; [|auto].
    destruct (delete x (store w)) as [e|[n db']] eqn:E; simpl.
    - rewrite E. reflexivity.
    - destruct (delete_result _ _ _ _ E) as (tb & _ & -> & _).
      destruct (deleted_again x (rows tb)) as [H1 H2].
      cbv zeta in H1, H2.
      destruct (n =? 0); simpl; rewrite H1, H2; reflexivity. }
  auto.
Qed.

(** What a PUT answered with 200 is what a GET for the same identifier
    answers right after it, and that GET leaves the table alone. *)
Theorem get_after_put req w resp w1 get :
  method_is (method req) "PUT" = true ->
  handler req w = (inr resp, w1) ->
  status resp = 200 ->
  method_is (method get) "GET" = true ->
  query_id get = query_id req ->
  fst (handler get w1) = inr resp /\ store (snd (handler get w1)) = store w1.
Proof.
  intros Hp H Hst Hg Hq. revert H Hst.
  apply method_is_true in Hp, Hg.
  step_handler. rewrite Hp, Hg, Hq. simpl.
  destruct (when_truthy _) as [x|]; simpl;
    [|intros [= <- <-] Hst; discriminate Hst].
  destruct (get_prop (body req) "title") as [t|]; simpl;
    [|intros [= <- <-] Hst; discriminate Hst].
  destruct (get_prop (body req) "author") as [a|]; simpl;
    [|intros [= <- <-] Hst; discriminate Hst].
  destruct (get_prop (body req) "year") as [y|]; simpl;
    [|intros [= <- <-] Hst; discriminate Hst].
  destruct (negb (truthy t) || negb (truthy a) || negb (truthy y)); simpl;
    [intros [= <- <-] Hst; discriminate Hst|].
  destruct (update t a y x (store w)) as [e|[n db']] eqn:E; simpl;
    [intros [= <- <-] Hst; discriminate Hst|].
  destruct (update_result _ _ _ _ _ _ _ E)
    as (tb & tb' & _ & -> & _ & _ & _ & _ & Hfound).
  destruct (n =? 0) eqn:En; simpl;
    [intros [= <- <-] Hst; discriminate Hst|].
  apply Z.eqb_neq in En. specialize (Hfound En).
  destruct (find (id_is x) (rows tb')) as [b|] eqn:F; [|congruence].
  intros [= <- <-] _. simpl. rewrite F. simpl. auto.
Qed.

(** Once a DELETE has been answered 204, a GET and a DELETE for the same
    identifier are answered 404, and leave the table alone. *)
Theorem gone_after_delete req w resp w1 again :
  method_is (method req) "DELETE" = true ->
  handler req w = (inr resp, w1) ->
  status resp = 204 ->
  method_is (method again) "GET" = true
    \/ method_is (method again) "DELETE" = true ->
  query_id again = query_id req ->
  fst (handler again w1) = inr (json 404 (ErrorBody "Book not found"))
  /\ store (snd (handler again w1)) = store w1.
Proof.
  intros Hd H Hst Hm Hq. revert H Hst.
  apply method_is_true in Hd.
  assert (Hagain : method again = Some "GET" \/ method again = Some "DELETE").
  { destruct Hm as [Hm|Hm]; apply method_is_true in Hm; auto. }
  clear Hm.
  step_handler. rewrite Hd, Hq. simpl.
  destruct (when_truthy _) as [x|]; simpl;
    [|intros [= <- <-] Hst; discriminate Hst].
  destruct (delete x (store w)) as [e|[n db']] eqn:E; simpl;
    [intros [= <- <-] Hst; discriminate Hst|].
  destruct (delete_result _ _ _ _ E) as (tb & _ & -> & _).
  destruct (n =? 0); simpl; [intros [= <- <-] Hst; discriminate Hst|].
  intros [= <- <-] _. simpl.
  destruct (deleted_again x (rows tb)) as [H1 H2]. cbv zeta in H1, H2.
  destruct Hagain as [-> | ->]; simpl.
  - rewrite find_after_delete. simpl. auto.
  - rewrite H1, H2. simpl. auto.
Qed.

End Sequences.

(* ----------------------------------------------------------------- *)
(** *** Loading the module on a table that is there *)

(** A load never touches a table that has rows: it succeeds and leaves the
    file as it found it. *)
Theorem initialise_keeps_rows d tb :
  books_db d = Some (Some tb) ->
  rows tb <> [] ->
  initialise d = inr {| data_dir := true; books_db := Some (Some tb) |}.
Proof.
  intros Hdb Hne. unfold initialise, existsSync, open.
  assert (Hd : books_db (if negb (data_dir d) then mkdirSync d else d)
               = Some (Some tb)
               /\ data_dir (if negb (data_dir d) then mkdirSync d else d) = true).
  { destruct (data_dir d) eqn:E; simpl; auto. }
  destruct Hd as [-> ->]. simpl.
  destruct (rows tb) as [|b bs]; [congruence|]. reflexivity.
Qed.

Lemma insert_seed t a y c tb :
  integer_column (PReal (of_Z y)) = Some c ->
  isNaN (of_Z y) = false ->
  max_id (rows tb) <= sequence tb ->
  sequence tb < 2 ^ 63 - 1 ->
  insert (VString t) (VString a) (VNumber (of_Z y)) (Some tb)
  = inr (Some {| rows := rows tb ++
                   [{| id := sequence tb + 1; title := Text t; author := Text a;
                       year := c |}];
                 sequence := sequence tb + 1 |}).
Proof.
  intros Hc Hn Hmax Hseq. unfold insert.
  with_strategy opaque [integer_column of_Z] simpl. rewrite Hn.
  with_strategy opaque [integer_column of_Z] simpl.
  rewrite Hc. rewrite Z.max_r by exact Hmax.
  destruct (sequence tb <? _) eqn:E; [reflexivity|].
  apply Z.ltb_ge in E. lia.
Qed.

(** A load that finds the table empty seeds it again, and never reuses a
    key: with the sequence at [s] the three rows get [s+1], [s+2] and
    [s+3].  So after every book has been deleted, the next start brings the
    seed books back under new identifiers. *)
Theorem reseed_uses_fresh_ids d s :
  open d = Some {| rows := []; sequence := s |} ->
  0 <= s -> s + 3 <= 2 ^ 63 - 1 ->
  initialise d
  = inr {| data_dir := true;
           books_db := Some (Some {| rows := seed_rows_after s;
                                     sequence := s + 3 |}) |}.
Proof.
  intros Hopen H0 Hs. unfold initialise, existsSync.
  assert (Hd : open (if negb (data_dir d) then mkdirSync d else d)
               = Some {| rows := []; sequence := s |}
               /\ data_dir (if negb (data_dir d) then mkdirSync d else d) = true).
  { destruct (data_dir d) eqn:E; simpl; auto. }
  destruct Hd as [-> ->]. cbn [create_table select_count rows List.length].
  change (Z.of_nat 0 =? 0) with true. cbv iota.
  unfold fakeBooks, insert_all.
  rewrite (insert_seed _ _ 1925 (Integer 1925));
    [| reflexivity | reflexivity | simpl; lia | simpl; lia].
  rewrite (insert_seed _ _ 1949 (Integer 1949));
    [| reflexivity | reflexivity | simpl; lia | simpl; lia].
  rewrite (insert_seed _ _ 1960 (Integer 1960));
    [| reflexivity | reflexivity | simpl; lia | simpl; lia].
  unfold seed_rows_after. simpl.
  repeat (f_equal; try lia).
Qed.

(** The seed books deleted one and all, then the module loaded again. *)
Lemma reseed_uses_fresh_ids_witness :
  initialise {| data_dir := true;
                books_db := Some (Some {| rows := []; sequence := 3 |}) |}
  = inr {| data_dir := true;
           books_db := Some (Some {| rows := seed_rows_after 3;
                                     sequence := 3 + 3 |}) |}.
Proof.
  apply (reseed_uses_fresh_ids
           {| data_dir := true;
              books_db := Some (Some {| rows := []; sequence := 3 |}) |} 3);
    [reflexivity | lia | lia].
Defined.

Lemma initialise_keeps_rows_witness :
  initialise seeded_disk = inr seeded_disk.
Proof.
  apply (initialise_keeps_rows seeded_disk {| rows := seed_rows; sequence := 3 |});
    [reflexivity | discriminate].
Defined.

(* ----------------------------------------------------------------- *)
(** *** The same, on the seeded table *)


Lemma handler_never_inserts_witness :
  exists tb',
    store (snd (handler {| method := Some "DELETE"; query_id := Some (QArray ["1"]);
                           body := VUndefined |} (start seeded))) = Some tb'
    /\ sequence tb' = 3
    /\ incl (map id (rows tb')) [1; 2; 3]
    /\ (List.length (rows tb') <= 3)%nat.
Proof.
  exact (handler_never_inserts
           {| method := Some "DELETE"; query_id := Some (QArray ["1"]);
              body := VUndefined |} (start seeded)
           {| rows := seed_rows; sequence := 3 |} eq_refl).
Defined.

Lemma handler_touches_only_its_id_witness :
  In {| id := 2; title := Text "1984"; author := Text "George Orwell";
        year := Integer 1949 |} seed_rows
  <-> In {| id := 2; title := Text "1984"; author := Text "George Orwell";
            year := Integer 1949 |} (tl seed_rows).
Proof.
  apply (handler_touches_only_its_id
           {| method := Some "DELETE"; query_id := Some (QArray ["1"]);
              body := VUndefined |} (start seeded)
           {| rows := seed_rows; sequence := 3 |}
           {| rows := tl seed_rows; sequence := 3 |}).
  - reflexivity.
  - reflexivity.
  - intros x [= <-]. reflexivity.
Defined.

Lemma repeating_changes_nothing_more_witness :
  fst (handler {| method := Some "GET"; query_id := Some (QArray ["2"]);
                  body := VUndefined |}
         (snd (handler {| method := Some "GET"; query_id := Some (QArray ["2"]);
                          body := VUndefined |} (start seeded))))
  = fst (handler {| method := Some "GET"; query_id := Some (QArray ["2"]);
                    body := VUndefined |} (start seeded)).
Proof.
  apply (proj2 (repeating_changes_nothing_more
                  {| method := Some "GET"; query_id := Some (QArray ["2"]);
                     body := VUndefined |} (start seeded))).
  reflexivity.
Defined.

Lemma get_after_put_witness :
  let put := {| method := Some "PUT"; query_id := Some (QArray ["2"]);
                body := VObject [ ("title", VString "1984");
                                  ("author", VString "George Orwell");
                                  ("year", VNumber (of_Z 2000)) ] |} in
  let get := {| method := Some "GET"; query_id := Some (QArray ["2"]);
                body := VUndefined |} in
  let resp := json 200 (BookBody (Some
                {| id := 2; title := Text "1984"; author := Text "George Orwell";
                   year := Integer 2000 |})) in
  fst (handler get (snd (handler put (start seeded)))) = inr resp
  /\ store (snd (handler get (snd (handler put (start seeded)))))
     = store (snd (handler put (start seeded))).
Proof.
  intros put get resp.
  apply (get_after_put put (start seeded) resp
           (snd (handler put (start seeded))) get);
    reflexivity.
Defined.

Lemma gone_after_delete_witness :
  let del := {| method := Some "DELETE"; query_id := Some (QArray ["1"]);
                body := VUndefined |} in
  fst (handler del (snd (handler del (start seeded))))
    = inr (json 404 (ErrorBody "Book not found"))
  /\ store (snd (handler del (snd (handler del (start seeded)))))
     = store (snd (handler del (start seeded))).
Proof.
  intros del.
  apply (gone_after_delete del (start seeded)
           {| status := 204; headers := []; payload := EndBody None |}
           (snd (handler del (start seeded))) del).
  - reflexivity.
  - reflexivity.
  - reflexivity.
  - right. reflexivity.
  - reflexivity.
Defined.

Lemma handler_keeps_key_witness :
  keyed (store (snd (handler {| method := Some "DELETE";
                                query_id := Some (QArray ["1"]);
                                body := VUndefined |} (start seeded)))).
Proof.
  apply (handler_keeps_key
           {| method := Some "DELETE"; query_id := Some (QArray ["1"]);
              body := VUndefined |} (start seeded)).
  exact seeded_keyed.
Defined.

Lemma initialise_keeps_key_witness : keyed (open seeded_disk).
Proof.
  apply (initialise_keeps_key empty_disk seeded_disk); [reflexivity|].
  exact I.
Defined.

End ApiFacts.

(* ================================================================= *)
(** ** Properties of the client view *)

Module ClientFacts.
Import JS Client.

(** C2, as the code has it.  Cancel leaves Editing for Browsing: it clears
    the edit-mode flag, which takes the form off the page, and sends
    nothing.  The form buffer is not emptied: its contents, like the list
    and the error slot, stay as they were. *)
Theorem cancel_closes_the_form {Net : Type} (w : world Net) :
  Browsing (view (cancel w))
  /\ sent (cancel w) = sent w
  /\ net (cancel w) = net w
  /\ formData (view (cancel w)) = formData (view w)
  /\ books (view (cancel w)) = books (view w)
  /\ error (view (cancel w)) = error (view w).
Proof. repeat split. Qed.

(** C2, as stated, fails: cancelling the edit of [1984] keeps both the
    selection and the buffer. *)
Lemma cancel_discards_nothing :
  Editing (view editing)
  /\ ~ (selectedBook (view (cancel editing)) = None
        /\ formData (view (cancel editing)) = formData initial).
Proof.
  split; [reflexivity|].
  intros [H _]. discriminate H.
Qed.

Section Home.

Context {Net : Type} (fetch : FetchRequest -> Net -> Fetched * Net).

Implicit Types (w : world Net).

(** [fetchBooks] sends one GET for the list.  The list shown afterwards is
    the one the answer carries, or the old one when the request failed;
    nothing else of the view but the error slot changes. *)
Lemma fetchBooks_refetches w :
  let '(a, n) := fetch list_request (net w) in
  let w' := fetchBooks fetch w in
  sent w' = sent w ++ [list_request]
  /\ net w' = n
  /\ books (view w') =
       match listing a with Some data => data | None => books (view w) end
  /\ error (view w') =
       match listing a with Some _ => "" | None => "Error fetching books" end
  /\ editMode (view w') = editMode (view w)
  /\ selectedBook (view w') = selectedBook (view w)
  /\ formData (view w') = formData (view w).
Proof.
  unfold fetchBooks, send, list_request.
  destruct (fetch _ (net w)) as [[reason|response] n]; simpl.
  - repeat split.
  - destruct (ok response); simpl; [|repeat split].
    destruct (json response); simpl; repeat split.
Qed.

(** C8. With a book selected, submit sends one PUT for that book's
    identifier whose body is the form buffer, [year] run through
    [parseInt].  If the answer is a success, the view leaves edit mode,
    drops the selection, and a GET for the whole list follows in every
    case; the list shown is then the one that GET returned, or the old one
    if the GET failed, never one built from the buffer.  If the PUT fails
    (rejected, or answered with a status that is not ok), no further request
    is sent, the view stays in edit mode with the same buffer, selection and
    list, and the error slot says [Error updating book]. *)
Theorem submit_updates_then_refetches w selected :
  selectedBook (view w) = Some selected ->
  let put := {| method := "PUT";
                target := ApiBook (Book.id selected);
                body := Some (VObject
                  [ ("title", VString (FormData.title (formData (view w))));
                    ("author", VString (FormData.author (formData (view w))));
                    ("year", stringify_number
                               (parseInt (FormData.year (formData (view w))))) ]) |} in
  let '(a, n1) := fetch put (net w) in
  let w' := handleUpdate fetch w in
  if succeeded a then
    let '(a2, n2) := fetch list_request n1 in
    sent w' = sent w ++ [put; list_request]
    /\ net w' = n2
    /\ editMode (view w') = false
    /\ selectedBook (view w') = None
    /\ books (view w') =
         match listing a2 with Some data => data | None => books (view w) end
    /\ error (view w') =
         match listing a2 with Some _ => "" | None => "Error fetching books" end
  else
    sent w' = sent w ++ [put]
    /\ net w' = n1
    /\ editMode (view w') = editMode (view w)
    /\ formData (view w') = formData (view w)
    /\ selectedBook (view w') = selectedBook (view w)
    /\ books (view w') = books (view w)
    /\ error (view w') = "Error updating book"
    /\ console w' = console w ++ [("Error:", update_failure a)].
Proof.
  intros Hsel put. subst put.
  unfold handleUpdate, update_body. rewrite Hsel. unfold send.
  destruct (fetch _ (net w)) as [[reason|response] n1]; simpl.
  - repeat split; exact Hsel.
  - destruct (ok response); simpl; [|repeat split; exact Hsel].
    match goal with |- context [fetchBooks fetch ?w0] =>
      pose proof (fetchBooks_refetches w0) as H; simpl in H end.
    destruct (fetch list_request n1) as [a2 n2].
    destruct H as (Hsent & Hnet & Hbooks & Herr & Hedit & Hselected & _).
    rewrite Hsent, Hnet, Hbooks, Herr, Hedit, Hselected.
    rewrite <- app_assoc. repeat split.
Qed.

End Home.

(** Submitting the edit of [1984] to a server that accepts it. *)
Lemma submit_updates_then_refetches_witness :
  selectedBook (view editing) = Some book_1984
  /\ (let w' := handleUpdate agreeable editing in
      sent w' =
        [ {| method := "PUT"; target := ApiBook (of_Z 2);
             body := Some (VObject [ ("title", VString "1984");
                                     ("author", VString "George Orwell");
                                     ("year", VNumber (of_Z 2000)) ]) |};
          list_request ]
      /\ net w' = tt
      /\ editMode (view w') = false
      /\ selectedBook (view w') = None
      /\ books (view w') = [book_1984_in_2000]
      /\ error (view w') = "").
Proof.
  split; [reflexivity|].
  exact (submit_updates_then_refetches agreeable editing book_1984 eq_refl).
Defined.

(* ----------------------------------------------------------------- *)
(** *** Select, delete and submit *)

Section Buttons.

Context {Net : Type} (fetch : FetchRequest -> Net -> Fetched * Net).

Implicit Types (w : world Net).

(** Delete sends one DELETE for the given identifier.  If it succeeds a GET
    for the whole list follows and the list shown is the one it returned
    (or the old one if that GET failed); if it fails nothing more is sent,
    the list stays as last fetched and the error slot says
    [Error deleting book].  Either way the edit form, the selection and the
    buffer are left as they were, also when the deleted book is the one
    being edited. *)
Theorem delete_sends_then_refetches id w :
  let '(a, n1) := fetch (delete_request id) (net w) in
  let w' := handleDelete fetch id w in
  editMode (view w') = editMode (view w)
  /\ selectedBook (view w') = selectedBook (view w)
  /\ formData (view w') = formData (view w)
  /\ if succeeded a then
       let '(a2, n2) := fetch list_request n1 in
       sent w' = sent w ++ [delete_request id; list_request]
       /\ net w' = n2
       /\ books (view w') =
            match listing a2 with Some data => data | None => books (view w) end
       /\ error (view w') =
            match listing a2 with Some _ => "" | None => "Error fetching books" end
     else
       sent w' = sent w ++ [delete_request id]
       /\ net w' = n1
       /\ books (view w') = books (view w)
       /\ error (view w') = "Error deleting book"
       /\ console w' = console w ++ [("Error:", delete_failure a)].
Proof.
  unfold handleDelete, delete_request, send.
  destruct (fetch _ (net w)) as [[reason|response] n1]; simpl.
  - repeat split.
  - destruct (ok response); simpl; [|repeat split].
    match goal with |- context [fetchBooks fetch ?w0] =>
      pose proof (fetchBooks_refetches fetch w0) as H; simpl in H end.
    destruct (fetch list_request n1) as [a2 n2].
    destruct H as (Hsent & Hnet & Hbooks & Herr & Hedit & Hselected & Hform).
    rewrite Hsent, Hnet, Hbooks, Herr, Hedit, Hselected, Hform.
    rewrite <- app_assoc. repeat split.
Qed.

(** Select opens the form on the chosen book and clears the error slot;
    what it leaves depends on the book and the list only.  Whatever
    selection and buffer an earlier select or a cancel left behind is
    overwritten, so cancel-then-select is the same as select. *)
Theorem select_starts_afresh (toString : number -> string) book w :
  let w' := set (handleEdit toString book) w in
  Editing (view w')
  /\ selectedBook (view w') = Some book
  /\ error (view w') = ""
  /\ books (view w') = books (view w)
  /\ sent w' = sent w
  /\ set (handleEdit toString book) (cancel w) = w'
  /\ (forall other, set (handleEdit toString book)
                        (set (handleEdit toString other) w) = w').
Proof. repeat split. Qed.

(** Select a book and submit without touching the form: when the year
    survives [toString] and [parseInt], as a finite year other than zero
    written in digits does, the PUT that is sent is for that book's
    identifier and carries its own title, author and year. *)
Theorem select_then_submit_sends_the_book (toString : number -> string) book w :
  parseInt (toString (Book.year book)) = Book.year book ->
  finite_nonzero (Book.year book) = true ->
  exists rest,
    sent (handleUpdate fetch (set (handleEdit toString book) w))
    = sent w ++
        {| method := "PUT"; target := ApiBook (Book.id book);
           body := Some (VObject [ ("title", VString (Book.title book));
                                   ("author", VString (Book.author book));
                                   ("year", VNumber (Book.year book)) ]) |}
        :: rest.
Proof.
  intros Hyear Hfinite.
  unfold handleUpdate, update_body, send. simpl. rewrite Hyear.
  assert (stringify_number (Book.year book) = VNumber (Book.year book)) as ->.
  { destruct (Book.year book); try discriminate Hfinite. reflexivity. }
  destruct (fetch _ (net w)) as [[reason|response] n1]; simpl.
  - exists []. reflexivity.
  - destruct (ok response); simpl; [|exists []; reflexivity].
    match goal with |- context [fetchBooks fetch ?w0] =>
      pose proof (fetchBooks_refetches fetch w0) as H; simpl in H end.
    destruct (fetch list_request n1) as [a2 n2].
    destruct H as (Hsent & _). rewrite Hsent, <- app_assoc.
    eexists. reflexivity.
Qed.

(** After a submit that succeeded, the selection is gone: submitting once
    more sends nothing and changes nothing. *)
Theorem second_submit_does_nothing selected w :
  selectedBook (view w) = Some selected ->
  succeeded (fst (fetch (update_request selected (formData (view w))) (net w)))
    = true ->
  handleUpdate fetch (handleUpdate fetch w) = handleUpdate fetch w.
Proof.
  intros Hsel Hok.
  assert (Hnone : selectedBook (view (handleUpdate fetch w)) = None).
  { revert Hok. unfold handleUpdate, update_request, send. rewrite Hsel.
    destruct (fetch _ (net w)) as [[reason|response] n1]; simpl;
      [discriminate|].
    intros ->. simpl.
    match goal with |- context [fetchBooks fetch ?w0] =>
      pose proof (fetchBooks_refetches fetch w0) as H; simpl in H end.
    destruct (fetch list_request n1) as [a2 n2].
    destruct H as (_ & _ & _ & _ & _ & Hselected & _). exact Hselected. }
  unfold handleUpdate at 1. rewrite Hnone. reflexivity.
Qed.

(** The error slot only ever holds one of four fixed texts: whatever the
    server answers or the network rejects with goes to [console.error], not
    to the page. *)
Theorem error_slot_is_fixed_text id w :
  In (error (view (fetchBooks fetch w))) error_messages
  /\ In (error (view (handleDelete fetch id w))) error_messages
  /\ (selectedBook (view w) <> None ->
      In (error (view (handleUpdate fetch w))) error_messages).
Proof.
  assert (Hfetch : forall w0, In (error (view (fetchBooks fetch w0))) error_messages).
  { intros w0. pose proof (fetchBooks_refetches fetch w0) as H.
    destruct (fetch list_request (net w0)) as [a n].
    destruct H as (_ & _ & _ & -> & _).
    destruct (listing a); simpl; auto. }
  split; [apply Hfetch|]. split.
  - unfold handleDelete, send.
    destruct (fetch _ (net w)) as [[reason|response] n1]; simpl; [auto|].
    destruct (ok response); simpl; [apply Hfetch|auto].
  - unfold handleUpdate, send.
    destruct (selectedBook (view w)) as [selected|]; [|congruence].
    intros _.
    destruct (fetch _ (net w)) as [[reason|response] n1]; simpl; [auto|].
    destruct (ok response); simpl; [apply Hfetch|auto 6].
Qed.

End Buttons.

(** Selecting [1984], whose year reads [1949], and submitting at once. *)
Lemma select_then_submit_sends_the_book_witness :
  exists rest,
    sent (handleUpdate agreeable
            (set (handleEdit (fun _ => "1949") book_1984) editing))
    = [] ++
        {| method := "PUT"; target := ApiBook (of_Z 2);
           body := Some (VObject [ ("title", VString "1984");
                                   ("author", VString "George Orwell");
                                   ("year", VNumber (of_Z 1949)) ]) |}
        :: rest.
Proof.
  exact (select_then_submit_sends_the_book agreeable (fun _ => "1949")
           book_1984 editing eq_refl eq_refl).
Defined.

Lemma second_submit_does_nothing_witness :
  handleUpdate agreeable (handleUpdate agreeable editing)
  = handleUpdate agreeable editing.
Proof.
  exact (second_submit_does_nothing agreeable book_1984 editing eq_refl eq_refl).
Defined.

Lemma error_slot_is_fixed_text_witness :
  In (error (view (handleUpdate agreeable editing))) error_messages.
Proof.
  apply (error_slot_is_fixed_text agreeable (of_Z 2) editing).
  discriminate.
Defined.

End ClientFacts.

(* ================================================================= *)
(** ** The form on the wire *)

Module WireFacts.
Import JS Sqlite Api.

(** What the server makes of the document the form is sent as.  A PUT for
    a truthy identifier that carries [update_body f] is refused with 400
    [Missing required fields], nothing run on the store, exactly when the
    title or the author is empty or the year field does not read as a
    finite number other than zero (empty, not a number, [0]); otherwise
    the UPDATE is run with the title, the author and the parsed year. *)
Theorem form_is_accepted_or_refused {DB : Type} {D : Database DB}
    (f : Client.FormData.t) (req : Request) (w : world DB) (x : number) :
  method_is (method req) "PUT" = true ->
  when_truthy (parse_id (query_id req)) = Some x ->
  body req = Client.update_body f ->
  let year := parseInt (Client.FormData.year f) in
  if (Client.FormData.title f =? "")%string
     || (Client.FormData.author f =? "")%string
     || negb (Client.finite_nonzero year)
  then handler req w = (inr (json 400 (ErrorBody "Missing required fields")), w)
  else exists thrown,
      nth_error (accesses (snd (handler req w))) (List.length (accesses w))
      = Some {| statement := Update (VString (Client.FormData.title f))
                                    (VString (Client.FormData.author f))
                                    (VNumber year) x;
                thrown := thrown |}.
Proof.
  intros Hm Hx Hb year. subst year.
  apply ApiFacts.method_is_true in Hm.
  ApiFacts.step_handler. rewrite Hm, Hx, Hb. simpl.
  destruct (Client.FormData.title f =? "")%string; simpl;
    [destruct w; reflexivity|].
  destruct (Client.FormData.author f =? "")%string; simpl;
    [destruct w; reflexivity|].
  destruct (parseInt (Client.FormData.year f)) as [s|s| |s m e]; simpl;
    try (destruct w; reflexivity).
  destruct (db_update _ _ _ x (store w)) as [[e'|n] db']; simpl.
  - eexists. rewrite nth_error_app2, Nat.sub_diag by lia. reflexivity.
  - destruct (n =? 0); simpl.
    + eexists. rewrite nth_error_app2, Nat.sub_diag by lia. reflexivity.
    + destruct (db_get x db') as [[e'|b] db'']; simpl;
        eexists; rewrite <- app_assoc, nth_error_app2, Nat.sub_diag by lia;
        reflexivity.
Qed.

(** The form of [1984] with the year field left empty. *)
Lemma form_is_accepted_or_refused_witness :
  handler {| method := Some "PUT"; query_id := Some (QArray ["2"]);
             body := Client.update_body
                       {| Client.FormData.title := "1984";
                          Client.FormData.author := "George Orwell";
                          Client.FormData.year := "" |} |} (start seeded)
  = (inr (json 400 (ErrorBody "Missing required fields")), start seeded).
Proof.
  exact (form_is_accepted_or_refused (D := sqlite)
           {| Client.FormData.title := "1984";
              Client.FormData.author := "George Orwell";
              Client.FormData.year := "" |}
           {| method := Some "PUT"; query_id := Some (QArray ["2"]);
              body := Client.update_body
                        {| Client.FormData.title := "1984";
                           Client.FormData.author := "George Orwell";
                           Client.FormData.year := "" |} |}
           (start seeded) (Number "2") eq_refl eq_refl eq_refl).
Defined.

End WireFacts.
